(** * check-tx.py: a shallow embedding and its properties

    The script checks which operator endpoints know a Neon transaction and
    its receipt, then asks one of them for the extended receipt and, for a
    failed transaction, fetches the logs of the failed Solana transactions.

    Python [str] values are modelled as [string]s holding their UTF-8
    encoding; Python [int]s are [Z]; a [float] is a mantissa and an exponent
    of binary64.  Every call that leaves the process (JSON-RPC, HTTP, the
    file system) is recorded as an [event]; the answers of the remote
    services are read from a [world]. *)

From Stdlib Require Import Ascii QArith Qpower Lqa SpecFloat.
From stdpp Require Import gmap strings list pretty.

Set Warnings "-register-all".
Open Scope string_scope.
Open Scope list_scope.
Open Scope Z_scope.

(** ** Characters and strings *)

Definition code (c : ascii) : N := N_of_ascii c.

Definition in_range (lo hi : N) (c : ascii) : bool :=
  ((lo <=? code c) && (code c <=? hi))%N.

(** The class [[0-9a-fA-F]]. *)
Definition is_hex_digit (c : ascii) : bool :=
  in_range 48 57 c || in_range 97 102 c || in_range 65 70 c.

Fixpoint all_hex (s : string) : bool :=
  match s with
  | EmptyString => true
  | String c r => is_hex_digit c && all_hex r
  end.

(** A byte that continues a multi-byte UTF-8 sequence ([10xxxxxx]). *)
Definition is_continuation (c : ascii) : bool := in_range 128 191 c.

(** [len(s)] for a [str]: the number of code points. *)
Fixpoint py_strlen (s : string) : Z :=
  match s with
  | EmptyString => 0
  | String c r => (if is_continuation c then 0 else 1) + py_strlen r
  end.

(** [sep.join(l)] *)
Fixpoint join (sep : string) (l : list string) : string :=
  match l with
  | [] => ""
  | [x] => x
  | x :: r => x +:+ sep +:+ join sep r
  end.

Definition newline : string := String (ascii_of_N 10) "".

(** ** The hash check of the command line (lines 107-110) *)

Definition remove_0x_prefix (s : string) : option string :=
  match s with
  | String a (String b r) =>
      if bool_decide (a = "0"%char)
         && (bool_decide (b = "x"%char) || bool_decide (b = "X"%char))
      then Some r else None
  | _ => None
  end.

(** A full match of [(0[xX])?[0-9a-fA-F]*]: hexadecimal digits only, after
    an optional [0x] or [0X]. *)
Definition hex_text (s : string) : bool :=
  all_hex s ||
  match remove_0x_prefix s with
  | Some r => all_hex r
  | None => false
  end.

(** [eth_utils.is_hex]: a text that is not empty and fully matches
    [(0[xX])?[0-9a-fA-F]*]. *)
Definition is_hex (value : string) : bool :=
  negb (bool_decide (value = "")) && hex_text value.

(** [is_hex(args.tx_hash) and len(args.tx_hash) == 66] *)
Definition valid_hash (tx_hash : string) : bool :=
  is_hex tx_hash && (py_strlen tx_hash =? 66).

(** The pattern [^0x[0-9a-fA-F]{64}$] of the specification, read as a match
    of the whole string. *)
Definition matches_pattern (s : string) : bool :=
  match s with
  | String a (String b r) =>
      bool_decide (a = "0"%char) && bool_decide (b = "x"%char)
      && all_hex r && (String.length r =? 64)%nat
  | _ => false
  end.

(** ** Python values and built-ins *)

Inductive exn :=
  | KeyError | TypeError | ValueError | IndexError | AttributeError
  | ZeroDivisionError | OverflowError | FileNotFoundError
  | TransactionNotFound.

(** The result of evaluating an expression: a value or a raised exception. *)
Inductive py (A : Type) :=
  | Val (a : A)
  | Exc (e : exn).
Arguments Val {A} a.
Arguments Exc {A} e.

#[global] Instance py_ret : MRet py := fun A a => Val a.
#[global] Instance py_bind : MBind py := fun A B f m =>
  match m with
  | Val a => f a
  | Exc e => Exc e
  end.

(** What [response.json()] yields.  A [JDict] lists the items of the [dict]
    in insertion order; a [JFloat] keeps the literal, since the script never
    computes with one. *)
Inductive json :=
  | JNull
  | JBool (b : bool)
  | JInt (n : Z)
  | JFloat (literal : string)
  | JStr (s : string)
  | JList (l : list json)
  | JDict (d : list (string * json)).

Fixpoint dict_get {V : Type} (k : string) (d : list (string * V)) : option V :=
  match d with
  | [] => None
  | (k', v) :: r => if decide (k = k') then Some v else dict_get k r
  end.

(** [k in d] *)
Definition dict_has {V : Type} (k : string) (d : list (string * V)) : bool :=
  match dict_get k d with
  | Some _ => true
  | None => false
  end.

(** [d[k] = v]: an existing key keeps its place, a new one goes last. *)
Fixpoint dict_set {V : Type} (k : string) (v : V) (d : list (string * V))
  : list (string * V) :=
  match d with
  | [] => [(k, v)]
  | (k', v') :: r =>
      if decide (k = k') then (k, v) :: r else (k', v') :: dict_set k v r
  end.

(** [j[k]] for a [str] key [k] *)
Definition getitem (j : json) (k : string) : py json :=
  match j with
  | JDict d =>
      match dict_get k d with
      | Some v => Val v
      | None => Exc KeyError
      end
  | _ => Exc TypeError
  end.

(** The code points of a [str], each as a [str] of its own. *)
Fixpoint py_chars (s : string) : list string :=
  match s with
  | EmptyString => []
  | String c r =>
      let rest := py_chars r in
      match r, rest with
      | String c' _, x :: xs =>
          if is_continuation c' then String c x :: xs
          else String c "" :: rest
      | _, _ => String c "" :: rest
      end
  end.

(** [len(j)] *)
Definition py_len (j : json) : py Z :=
  match j with
  | JStr s => Val (py_strlen s)
  | JList l => Val (Z.of_nat (length l))
  | JDict d => Val (Z.of_nat (length d))
  | _ => Exc TypeError
  end.

(** The elements that [for x in j] visits. *)
Definition py_iter (j : json) : py (list json) :=
  match j with
  | JStr s => Val (JStr <$> py_chars s)
  | JList l => Val l
  | JDict d => Val ((λ kv, JStr kv.1) <$> d)
  | _ => Exc TypeError
  end.

(** [j == s] for a [str] literal [s] *)
Definition eq_str (j : json) (s : string) : bool :=
  match j with
  | JStr s' => bool_decide (s' = s)
  | _ => false
  end.

(** [j is False] *)
Definition is_False (j : json) : bool :=
  match j with
  | JBool false => true
  | _ => false
  end.

(** [l[-1]] for an optional list ([None[-1]] is a [TypeError]) *)
Definition last_item (l : option (list string)) : py string :=
  match l with
  | None => Exc TypeError
  | Some l =>
      match last l with
      | Some x => Val x
      | None => Exc IndexError
      end
  end.

(** *** [int(s, 16)]

    CPython's [PyLong_FromString] on an ASCII string: white space around, an
    optional sign, an optional [0x] with one underscore allowed after it,
    then digits separated by single underscores.  A string with a byte
    outside ASCII is refused here. *)

Definition is_space (c : ascii) : bool :=
  in_range 9 13 c || in_range 32 32 c.

Definition digit_value (c : ascii) : option Z :=
  if in_range 48 57 c then Some (Z.of_N (code c) - 48)
  else if in_range 97 102 c then Some (Z.of_N (code c) - 87)
  else if in_range 65 70 c then Some (Z.of_N (code c) - 55)
  else None.

Fixpoint skip_space (s : string) : string :=
  match s with
  | String c r => if is_space c then skip_space r else s
  | EmptyString => s
  end.

(** Scans digits and underscores; gives the value, the number of digits and
    the rest, or [None] for a doubled or trailing underscore. *)
Fixpoint scan_digits (s : string) (prev_underscore : bool) (digits : nat)
    (acc : Z) : option (Z * nat * string) :=
  match s with
  | String c r =>
      if bool_decide (c = "_"%char) then
        if prev_underscore then None else scan_digits r true digits acc
      else
        match digit_value c with
        | Some d => scan_digits r false (S digits) (acc * 16 + d)
        | None => if prev_underscore then None else Some (acc, digits, s)
        end
  | EmptyString => if prev_underscore then None else Some (acc, digits, s)
  end.

Definition skip_sign (s : string) : Z * string :=
  match s with
  | String "+" r => (1, r)
  | String "-" r => (-1, r)
  | _ => (1, s)
  end.

Definition skip_base_prefix (s : string) : string :=
  match remove_0x_prefix s with
  | Some (String "_" r) => r
  | Some r => r
  | None => s
  end.

Definition int_of_str16 (s : string) : py Z :=
  let '(sign, s1) := skip_sign (skip_space s) in
  let s2 := skip_base_prefix s1 in
  match s2 with
  | String "_" _ => Exc ValueError
  | _ =>
      match scan_digits s2 false 0 0 with
      | Some (v, S _, rest) =>
          match skip_space rest with
          | EmptyString => Val (sign * v)
          | _ => Exc ValueError
          end
      | _ => Exc ValueError
      end
  end.

(** [int(j, 16)] *)
Definition py_int16 (j : json) : py Z :=
  match j with
  | JStr s => int_of_str16 s
  | _ => Exc TypeError
  end.

(** *** [Signature.from_string]

    The string must be at most 88 bytes of base 58 that decode to exactly
    64 bytes: one zero byte per leading [1], then the big-endian bytes of
    the number the digits spell. *)

Definition base58_alphabet : string :=
  "123456789ABCDEFGHJKLMNPQRSTUVWXYZabcdefghijkmnopqrstuvwxyz".

Fixpoint index_of (c : ascii) (alphabet : string) : option N :=
  match alphabet with
  | EmptyString => None
  | String a r =>
      if bool_decide (c = a) then Some 0%N else N.succ <$> index_of c r
  end.

Fixpoint base58_value (s : string) (acc : N) : option N :=
  match s with
  | EmptyString => Some acc
  | String c r =>
      match index_of c base58_alphabet with
      | Some d => base58_value r (acc * 58 + d)%N
      | None => None
      end
  end.

Fixpoint leading_ones (s : string) : N :=
  match s with
  | String "1" r => N.succ (leading_ones r)
  | _ => 0%N
  end.

Definition byte_length (n : N) : N := ((N.size n + 7) / 8)%N.

Definition signature_ok (s : string) : bool :=
  (String.length s <=? 88)%nat &&
  match base58_value s 0 with
  | Some v => (leading_ones s + byte_length v =? 64)%N
  | None => false
  end.

(** [Signature.from_string(j)] *)
Definition signature_from_string (j : json) : py string :=
  match j with
  | JStr s => if signature_ok s then Val s else Exc ValueError
  | _ => Exc TypeError
  end.

(** [HexBytes(s)]: hexadecimal digits after an optional [0x] or [0X]
    convert, anything else is a [ValueError]; the model keeps the text,
    which is all the remote calls are told. *)
Definition HexBytes (s : string) : py string :=
  if hex_text s then Val s else Exc ValueError.

(** The number of bytes of [HexBytes(s)] for a hexadecimal text [s]: two
    digits make a byte, and an odd number of digits is padded with a zero. *)
Definition hex_bytes (s : string) : nat :=
  Nat.div2 (S (String.length (default s (remove_0x_prefix s)))).

(** web3 formats the argument of [eth_getTransactionByHash] and of
    [eth_getTransactionReceipt] as a [bytes32]: a value of more than 32
    bytes is a [ValueError], a shorter one is padded. *)
Definition bytes32 (h : string) : py string :=
  if (hex_bytes h <=? 32)%nat then Val h else Exc ValueError.

(** ** Binary floating point (line 41)

    [gas_used / gas * 100] is computed in binary64.  The quotient of the two
    [int]s is rounded to the nearest number with a mantissa of 53 bits, the
    even one of two, and so is its product with 100; [.2f] then rounds the
    exact decimal expansion of that number to two places, again to the even
    one of two. *)

(** The integer nearest to [n / d], for [0 ≤ n] and [0 < d]. *)
Definition nearest_even (n d : Z) : Z :=
  let q := n / d in
  let r := n mod d in
  if 2 * r <? d then q
  else if d <? 2 * r then q + 1
  else if Z.even q then q else q + 1.

(** Numerator and denominator of [n / d / 2 ^ e]. *)
Definition scale (n d e : Z) : Z * Z :=
  if 0 <=? e then (n, d * 2 ^ e) else (n * 2 ^ (- e), d).

(** The exponent [e] of the mantissa of [n / d], for [0 < n] and [0 < d]:
    [2 ^ 52 ≤ n / d / 2 ^ e < 2 ^ 53], and [-1074] where that would be
    less (the subnormal numbers). *)
Definition binade (n d : Z) : Z :=
  let k := Z.log2 n - Z.log2 d in
  let '(n', d') := scale n d k in
  Z.max (if d' <=? n' then k - 52 else k - 53) (-1074).

(** A non-negative binary64 number: [m * 2 ^ e] or infinity. *)
Inductive double :=
  | Finite (m e : Z)
  | Infinite.

(** [n / d] rounded to binary64, for [0 ≤ n] and [0 < d]. *)
Definition round64 (n d : Z) : double :=
  if n =? 0 then Finite 0 0
  else
    let e := binade n d in
    let '(n', d') := scale n d e in
    let m := nearest_even n' d' in
    let '(m, e) := if m =? 2 ^ 53 then (2 ^ 52, e + 1) else (m, e) in
    if 971 <? e then Infinite else Finite m e.

(** [x * 100] *)
Definition times_100 (x : double) : double :=
  match x with
  | Finite m e => let '(n, d) := scale (m * 100) 1 (- e) in round64 n d
  | Infinite => Infinite
  end.

(** [f"{x:.2f}"] for the number of sign [negative] and magnitude [x]. *)
Definition format_2f (negative : bool) (x : double) : string :=
  (if negative then "-" else "")
  +:+ match x with
      | Finite m e =>
          let '(n, d) := scale (m * 100) 1 (- e) in
          let cents := nearest_even n d in
          pretty (cents / 100) +:+ "."
          +:+ (if cents mod 100 <? 10 then "0" else "") +:+ pretty (cents mod 100)
      | Infinite => "inf"
      end.

(** The text of [f"{gas_used / gas * 100:.2f}"] for a non-zero [gas];
    [None] when the quotient is too large for a float, which is an
    [OverflowError] of the division. *)
Definition float_percent (gas_used gas : Z) : option string :=
  let negative := xorb (gas_used <? 0) (gas <? 0) in
  match round64 (Z.abs gas_used) (Z.abs gas) with
  | Infinite => None
  | quotient => Some (format_2f negative (times_100 quotient))
  end.

(** ** The outside world *)

(** What the run does that can be observed from outside, in order. *)
Inductive event :=
  | Print (line : string)
  | PrintValue (text : string) (v : json)
  | GetTransaction (url tx_hash : string)
  | GetTransactionReceipt (url tx_hash : string)
  | NeonGetTransactionReceipt (url tx_hash : string)
  | SolanaGetTransaction (url signature : string)
  | WriteFile (path content : string)
  | MakeDir (path : string).

(** The answer of [sol_client.get_transaction]: [None], an answer whose
    [value] is [None], or [value.transaction.meta] ([None] or an object)
    with its [log_messages] ([None] or a list). *)
Inductive solana_details :=
  | NoDetails
  | NoValue
  | Details (meta : option (option (list string))).

(** The answers of the collaborators.
    - [eth_get_transaction url h]: the [gas] of the transaction that the
      endpoint returns for [eth_getTransactionByHash], [None] when its
      result is [null];
    - [eth_get_transaction_receipt url h]: whether the result of
      [eth_getTransactionReceipt] is a receipt, not [null];
    - [neon_getTransactionReceipt url h]: the JSON object of the response;
    - [solana_get_transaction url sig]: see [solana_details]. *)
Record world := {
  eth_get_transaction : string → string → option Z;
  eth_get_transaction_receipt : string → string → bool;
  neon_getTransactionReceipt : string → string → list (string * json);
  solana_get_transaction : string → string → solana_details
}.

(** The [logs] directory: [None] while it does not exist, otherwise its
    files, by path. *)
Abbreviation files := (option (gmap string string)).

(** How a piece of the script ends. *)
Inductive ending (A : Type) :=
  | Returns (a : A)
  | Raises (e : exn)
  | Exits (status : Z).
Arguments Returns {A} a.
Arguments Raises {A} e.
Arguments Exits {A} status.

(** A piece of the script: from the state of the [logs] directory to an
    ending, the events it caused and the new state. *)
Definition M (A : Type) : Type := files → ending A * list event * files.

(** The events [t] happened before what [x] reports. *)
Definition after {A : Type} (t : list event) (x : ending A * list event * files)
  : ending A * list event * files :=
  let '(r, t', fs) := x in (r, t ++ t', fs).

#[global] Instance M_ret : MRet M := fun A a fs => (Returns a, [], fs).
#[global] Instance M_bind : MBind M := fun A B f m fs =>
  match m fs with
  | (Returns a, t, fs') => after t (f a fs')
  | (Raises e, t, fs') => (Raises e, t, fs')
  | (Exits c, t, fs') => (Exits c, t, fs')
  end.

Definition emit (e : event) : M unit := fun fs => (Returns tt, [e], fs).
Definition print (line : string) : M unit := emit (Print line).
Definition exit {A : Type} (status : Z) : M A := fun fs => (Exits status, [], fs).
Definition lift {A : Type} (r : py A) : M A := fun fs =>
  match r with
  | Val a => (Returns a, [], fs)
  | Exc e => (Raises e, [], fs)
  end.

(** [with open(path, "w") as f: f.write(content)] *)
Definition write_file (path content : string) : M unit := fun fs =>
  match fs with
  | Some dir => (Returns tt, [WriteFile path content], Some (<[path := content]> dir))
  | None => (Raises FileNotFoundError, [], fs)
  end.

(** The status the process reports. *)
Definition exit_status {A : Type} (r : ending A) : Z :=
  match r with
  | Returns _ => 0
  | Raises _ => 1
  | Exits c => c
  end.

Definition is_some {A : Type} (o : option A) : bool :=
  match o with
  | Some _ => true
  | None => false
  end.

(** ** The requests of web3

    [w.eth.get_transaction(h)] and [w.eth.get_transaction_receipt(h)] never
    return [None]: a [null] result of the endpoint is turned into the
    exception [TransactionNotFound], and a hash of more than 32 bytes is
    refused before the request is sent. *)

(** [w.eth.get_transaction(h)]; the model keeps the [gas] of the result. *)
Definition get_transaction (w : world) (operator_url h : string) : M Z :=
  h ← lift (bytes32 h);
  emit (GetTransaction operator_url h);;
  lift (match eth_get_transaction w operator_url h with
        | Some gas => Val gas
        | None => Exc TransactionNotFound
        end).

(** [w.eth.get_transaction_receipt(h)] *)
Definition get_transaction_receipt (w : world) (operator_url h : string) : M unit :=
  h ← lift (bytes32 h);
  emit (GetTransactionReceipt operator_url h);;
  lift (if eth_get_transaction_receipt w operator_url h
        then Val tt else Exc TransactionNotFound).

(** ** check_tx_exist, check_receipt_exist (lines 13-20)

    What the request returns is an object, so [is not None] is [True]. *)

Definition check_tx_exist (w : world) (tx_hash operator_url : string) : M bool :=
  h ← lift (HexBytes tx_hash);
  transaction ← get_transaction w operator_url h;
  mret true.

Definition check_receipt_exist (w : world) (tx_hash operator_url : string) : M bool :=
  h ← lift (HexBytes tx_hash);
  receipt ← get_transaction_receipt w operator_url h;
  mret true.

(** ** debug_transaction (lines 23-75) *)

(** Lines 50-52: the signatures of the sub-transactions flagged [False]. *)
Fixpoint collect_failed (solana_transactions failed_sol_tx : list json)
  : py (list json) :=
  match solana_transactions with
  | [] => Val failed_sol_tx
  | sol_tx :: rest =>
      flag ← getitem sol_tx "solanaTransactionIsSuccess";
      if is_False flag then
        signature ← getitem sol_tx "solanaTransactionSignature";
        collect_failed rest (failed_sol_tx ++ [signature])
      else collect_failed rest failed_sol_tx
  end.

Definition not_found_message (tx_hash : string) : string :=
  "Transaction " +:+ tx_hash +:+ " is failed but no failed solana transaction found".

(** [f"logs/{failed_sol_tx}.log"] *)
Definition log_file (signature : string) : string :=
  "logs/" +:+ signature +:+ ".log".

(** Lines 58-69, for a list that starts with [failed_sol_tx]: [None] when
    the loop left the function, otherwise the last value of the loop
    variable and [reasons]. *)
Fixpoint lookup_failed (w : world) (tx_hash solana_url : string)
    (failed_sol_tx : json) (rest : list json)
    (reasons : list (string * string))
  : M (option (string * list (string * string))) :=
  signature ← lift (signature_from_string failed_sol_tx);
  emit (SolanaGetTransaction solana_url signature);;
  match solana_get_transaction w solana_url signature with
  | NoDetails | NoValue =>
      print (not_found_message tx_hash);;
      mret None
  | Details meta =>
      logs ← lift (match meta with
                   | Some log_messages => Val log_messages
                   | None => Exc AttributeError
                   end);
      reason ← lift (last_item logs);
      let reasons := dict_set signature reason reasons in
      write_file (log_file signature) (join newline (default [] logs));;
      match rest with
      | [] => mret (Some (signature, reasons))
      | next :: rest' => lookup_failed w tx_hash solana_url next rest' reasons
      end
  end.

(** [f"    {tx}: {reason}"] *)
Definition reason_line (tx reason : string) : string :=
  "    " +:+ tx +:+ ": " +:+ reason.

(** Lines 73-74 *)
Fixpoint print_reasons (reasons : list (string * string)) : M unit :=
  match reasons with
  | [] => mret tt
  | (tx, reason) :: rest =>
      print (reason_line tx reason);;
      print_reasons rest
  end.

(** Line 35 *)
Definition status_of (status_field : json) : string :=
  if eq_str status_field "0x0" then "Failed" else "Success".

(** The text of line 41 *)
Definition gas_line (gas gas_used : Z) (percent : string) : string :=
  "Estimated gas: " +:+ pretty gas +:+ " | Gas used: " +:+ pretty gas_used
  +:+ " " +:+ percent +:+ "%".

(** [gas_used / gas * 100], formatted with [.2f] *)
Definition percent_of (gas_used gas : Z) : py string :=
  if decide (gas = 0) then Exc ZeroDivisionError
  else match float_percent gas_used gas with
       | Some text => Val text
       | None => Exc OverflowError
       end.

(** Lines 47-75: what follows the report for a failed transaction. *)
Definition debug_failed (w : world) (tx_hash solana_url : string) (tx_info : json)
  : M unit :=
  solana_transactions ← lift (getitem tx_info "solanaTransactions");
  items ← lift (py_iter solana_transactions);
  failed_sol_tx ← lift (collect_failed items []);
  match failed_sol_tx with
  | [] => print (not_found_message tx_hash)
  | first :: rest =>
      print ("Solana failed transactions: "
             +:+ pretty (Z.of_nat (length failed_sol_tx)));;
      r ← lookup_failed w tx_hash solana_url first rest [];
      match r with
      | None => mret tt
      | Some (failed_sol_tx, reasons) =>
          print ("Failed Solana transaction: " +:+ failed_sol_tx);;
          print "Reasons:";;
          print_reasons reasons;;
          print "Full log saved in 'logs' folder"
      end
  end.

Definition debug_transaction (w : world) (tx_hash operator_url solana_url : string)
  : M unit :=
  emit (NeonGetTransactionReceipt operator_url tx_hash);;
  let tx_info := neon_getTransactionReceipt w operator_url tx_hash in
  if negb (dict_has "result" tx_info) then
    emit (PrintValue "Got a problem with transaction info: " (JDict tx_info))
  else
    tx_info ← lift (getitem (JDict tx_info) "result");
    status_field ← lift (getitem tx_info "status");
    let status := status_of status_field in
    h ← lift (HexBytes tx_hash);
    gas ← get_transaction w operator_url h;
    gas_used_field ← lift (getitem tx_info "gasUsed");
    gas_used ← lift (py_int16 gas_used_field);
    solana_transactions ← lift (getitem tx_info "solanaTransactions");
    solana_txs ← lift (py_len solana_transactions);
    print ("Status: " +:+ status);;
    percent ← lift (percent_of gas_used gas);
    print (gas_line gas gas_used percent);;
    print ("Solana transactions: " +:+ pretty solana_txs);;
    if bool_decide (status = "Success") then mret tt
    else debug_failed w tx_hash solana_url tx_info.

(** ** The script (lines 78-158) *)

(** [config.toml]: the tables [rpc] and [solana], each a list of its items
    in the order of the file. *)
Record config := {
  rpc : list (string * string);
  solana : list (string * string)
}.

(** The parsed command line. *)
Record arguments := {
  network : string;
  tx_hash : string;
  logs : bool
}.

(** Truth of a variable that holds [None] or a [str]. *)
Definition truthy (o : option string) : bool :=
  match o with
  | Some s => negb (bool_decide (s = ""))
  | None => false
  end.

(** [d[k]] for a variable [k] that holds [None] or a [str]. *)
Definition config_get (d : list (string * string)) (k : option string) : py string :=
  match k ≫= λ k, dict_get k d with
  | Some v => Val v
  | None => Exc KeyError
  end.

(** Lines 112-113 *)
Definition ensure_logs_dir : M unit := fun fs =>
  match fs with
  | Some _ => (Returns tt, [], fs)
  | None => (Returns tt, [MakeDir "logs"], Some ∅)
  end.

(** Lines 118-125 *)
Fixpoint verify_transactions (w : world) (h : string)
    (items : list (string * string)) (transaction_operator : option string)
  : M (option string) :=
  match items with
  | [] => mret transaction_operator
  | (eth_network, url) :: rest =>
      result ← check_tx_exist w h url;
      let '(transaction_operator, result) :=
        if result : bool then (Some eth_network, "Exist")
        else (transaction_operator, "Not exist") in
      print (eth_network +:+ ": " +:+ result);;
      verify_transactions w h rest transaction_operator
  end.

(** Lines 134-142, for the function [check] that line 135 calls on the
    endpoint. *)
Fixpoint receipt_loop (check : string → M bool)
    (items : list (string * string)) (receipt_operator : option string)
  : M (option string) :=
  match items with
  | [] => mret receipt_operator
  | (eth_network, url) :: rest =>
      result ← check url;
      let '(receipt_operator, result) :=
        if result : bool then (Some eth_network, "Exist")
        else (receipt_operator, "Not exist") in
      let result := if truthy (Some result) then "Exist" else "Not exist" in
      print (eth_network +:+ ": " +:+ result);;
      receipt_loop check rest receipt_operator
  end.

(** Lines 134-142 *)
Definition verify_receipts (w : world) (h : string)
    (items : list (string * string)) (receipt_operator : option string)
  : M (option string) :=
  receipt_loop (check_receipt_exist w h) items receipt_operator.

(** Lines 155-158; the model lists the directory in the order of the map. *)
Definition print_logs : M unit := fun fs =>
  match fs with
  | Some dir =>
      (Returns tt,
       map_to_list dir ≫= (λ '(log, content),
         [Print ("---- Log from file: " +:+ log); Print content]),
       fs)
  | None => (Raises FileNotFoundError, [], fs)
  end.

(** Lines 152-158 *)
Definition show_logs (args : arguments) : M unit :=
  if logs args then
    print (newline +:+ "Logs of failed solana transactions");;
    print "-----------------------------------";;
    print_logs
  else mret tt.

Definition main (w : world) (cfg : config) (args : arguments) : M unit :=
  if negb (dict_has (network args) (solana cfg)) then
    print "Network not found";;
    exit 1
  else if negb (valid_hash (tx_hash args)) then
    print (tx_hash args);;
    print "Invalid transaction hash";;
    exit 1
  else
    ensure_logs_dir;;
    print "Verify transaction exist in operators";;
    print "-------------------------------------";;
    transaction_operator ← verify_transactions w (tx_hash args) (rpc cfg) None;
    if negb (truthy transaction_operator) then
      print "Transaction not found in operators";;
      exit 1
    else
      print (newline +:+ "Verify receipt exist in operators");;
      print "---------------------------------";;
      receipt_operator ← verify_receipts w (tx_hash args) (rpc cfg) None;
      if negb (truthy receipt_operator) then
        print "Receipt not found in operators";;
        exit 1
      else
        print (newline +:+ "Provide more information about transaction");;
        print "------------------------------------------";;
        operator_url ← lift (config_get (rpc cfg) receipt_operator);
        solana_url ← lift (config_get (solana cfg) (Some (network args)));
        debug_transaction w (tx_hash args) operator_url solana_url;;
        show_logs args.

(** ** Reading a run *)

(** The settlement-chain lookups of a run: endpoint and signature. *)
Definition looked_up (t : list event) : list (string * string) :=
  omap (λ e, match e with
             | SolanaGetTransaction url signature => Some (url, signature)
             | _ => None
             end) t.

(** The files a run wrote: path and content. *)
Definition written (t : list event) : list (string * string) :=
  omap (λ e, match e with
             | WriteFile path content => Some (path, content)
             | _ => None
             end) t.

(** The lines a run printed with a plain [print(line)]. *)
Definition printed (t : list event) : list string :=
  omap (λ e, match e with
             | Print line => Some line
             | _ => None
             end) t.

(** The calls over the network. *)
Definition is_network_call (e : event) : bool :=
  match e with
  | GetTransaction _ _ | GetTransactionReceipt _ _
  | NeonGetTransactionReceipt _ _ | SolanaGetTransaction _ _ => true
  | _ => false
  end.

(** The endpoints that were asked for the extended receipt. *)
Definition debugged (t : list event) : list string :=
  omap (λ e, match e with
             | NeonGetTransactionReceipt url _ => Some url
             | _ => None
             end) t.

(** A piece of the script that never ends in a [ZeroDivisionError]. *)
Definition no_division_error {A : Type} (m : M A) : Prop :=
  ∀ fs, (m fs).1.1 ≠ Raises ZeroDivisionError.

Definition is_newline (c : ascii) : bool := bool_decide (c = ascii_of_N 10).

(** A text without a line break. *)
Fixpoint single_line (s : string) : bool :=
  match s with
  | EmptyString => true
  | String c r => negb (is_newline c) && single_line r
  end.

(** What follows the last line break of a text. *)
Fixpoint last_line (s : string) : string :=
  match s with
  | EmptyString => ""
  | String c r =>
      if is_newline c then last_line r
      else if single_line r then s else last_line r
  end.

(** [m] is the integer nearest to [x], the even one of two. *)
Definition nearest (x : Q) (m : Z) : Prop :=
  (- (1 # 2) <= inject_Z m - x <= 1 # 2)%Q
  ∧ ((inject_Z m - x == 1 # 2 ∨ inject_Z m - x == - (1 # 2))%Q → Z.even m = true).

(** [y] is [x] rounded to a mantissa of 53 bits: [y] is [m * 2 ^ e] for the
    exponent [e] with [2 ^ 52 ≤ x / 2 ^ e < 2 ^ 53] and the integer [m]
    nearest to [x / 2 ^ e]. *)
Definition rounded_53 (x y : Q) : Prop :=
  ∃ m e : Z,
    (2 ^ 52 <= x / 2 ^ e < 2 ^ 53)%Q
    ∧ nearest (x / 2 ^ e)%Q m
    ∧ (y == inject_Z m * 2 ^ e)%Q.

(** A non-negative number of the standard library's model of IEEE 754 and
    a [double] are the same number. *)
Definition same_float (x : spec_float) (y : double) : bool :=
  match x, y with
  | S754_zero false, Finite 0 _ => true
  | S754_finite false m e, Finite m' e' => (Z.pos m =? m') && (e =? e')
  | S754_infinity false, Infinite => true
  | _, _ => false
  end.

(** An [int] as a number of that model. *)
Definition spec_float_of (n : Z) : spec_float :=
  match n with
  | Z.pos m => S754_finite false m 0
  | _ => S754_zero false
  end.

(** Pairs of gas values: every pair of small numbers, some large ones, and
    some whose quotient is subnormal or too large for a float. *)
Definition gas_samples : list (Z * Z) :=
  (a ← Z.of_nat <$> seq 0 40; b ← Z.of_nat <$> seq 1 40; [(a, b)])
  ++ [(1015, 100000); (21000, 42000); (2 ^ 64 - 1, 3); (1, 2 ^ 64 - 1);
      (9007199254740993, 7); (123456789, 2 ^ 1000); (2 ^ 1000, 3);
      (1, 2 ^ 1074); (1, 2 ^ 1075); (3, 2 ^ 1075); (2 ^ 1030, 1)].

(** An element of [solanaTransactions] with a Boolean flag and a [str]
    signature. *)
Definition is_sub_transaction (j : json) (entry : bool * string) : Prop :=
  getitem j "solanaTransactionIsSuccess" = Val (JBool entry.1)
  ∧ getitem j "solanaTransactionSignature" = Val (JStr entry.2).

(** A well-formed extended receipt: a [str] status, a [gasUsed] that
    [int(_, 16)] reads as [gas_used], and a list of sub-transactions. *)
Record extended_receipt (tx_info : json) (status : string) (gas_used : Z)
    (entries : list (bool * string)) : Prop := {
  receipt_status : getitem tx_info "status" = Val (JStr status);
  receipt_gas_used :
    ∃ text, getitem tx_info "gasUsed" = Val (JStr text)
            ∧ int_of_str16 text = Val gas_used;
  receipt_transactions :
    ∃ items, getitem tx_info "solanaTransactions" = Val (JList items)
             ∧ Forall2 is_sub_transaction items entries
}.

(** The operator at [url] answers the extended-receipt request for [h] with
    a [result], and returns the transaction with its [gas]; [h] is a
    hexadecimal text of at most 32 bytes, as [HexBytes] and web3 require. *)
Record operator_answers (w : world) (url h : string) (tx_info : json) (gas : Z)
  : Prop := {
  answer_hash : hex_text h = true;
  answer_bytes : (hex_bytes h <=? 32)%nat = true;
  answer_result : dict_get "result" (neon_getTransactionReceipt w url h) = Some tx_info;
  answer_gas : eth_get_transaction w url h = Some gas
}.

(** The settlement chain at [url] returns the log messages
    [logs_of signature] for a well-formed [signature], at least one. *)
Record has_logs (w : world) (url : string) (logs_of : string → list string)
    (signature : string) : Prop := {
  logs_signature : signature_ok signature = true;
  logs_details :
    solana_get_transaction w url signature = Details (Some (Some (logs_of signature)));
  logs_some : logs_of signature ≠ []
}.

(** The text written for a signature whose log lines are [logs_of]. *)
Definition log_text (logs_of : string → list string) (signature : string) : string :=
  join newline (logs_of signature).

(** One lookup and one write per signature, in order. *)
Definition lookup_events (url : string) (logs_of : string → list string)
    (signatures : list string) : list event :=
  signatures ≫= λ signature,
    [SolanaGetTransaction url signature;
     WriteFile (log_file signature) (log_text logs_of signature)].

(** [reasons] after the signatures were entered with their last log
    message. *)
Definition record_reasons (logs_of : string → list string)
    (reasons : list (string * string)) (signatures : list string)
  : list (string * string) :=
  foldl (λ d signature, dict_set signature (default "" (last (logs_of signature))) d)
    reasons signatures.

(** The directory after the texts were written. *)
Definition store_logs (logs_of : string → list string) (dir : gmap string string)
    (signatures : list string) : gmap string string :=
  foldl (λ d signature, <[log_file signature := log_text logs_of signature]> d)
    dir signatures.

(** The signatures of the entries flagged unsuccessful, in order. *)
Definition failed_signatures (entries : list (bool * string)) : list string :=
  snd <$> filter (λ entry, entry.1 = false) entries.

(** The endpoint of the item returns the transaction [h]. *)
Definition has_transaction (w : world) (h : string) (item : string * string) : Prop :=
  is_some (eth_get_transaction w item.2 h) = true.

(** The endpoint of the item returns the receipt of [h]. *)
Definition has_receipt (w : world) (h : string) (item : string * string) : Prop :=
  eth_get_transaction_receipt w item.2 h = true.

(** The items of [rpc] whose endpoint answers [true] to [reports]. *)
Definition reporting (reports : string → bool) (items : list (string * string))
  : list (string * string) :=
  filter (λ item, reports item.2 = true) items.

(** The name of the last item, or [before] when there is none. *)
Definition last_name (items : list (string * string)) (before : option string)
  : option string :=
  match last items with
  | Some item => Some item.1
  | None => before
  end.

(** The hashes that pass the check of the command line: 66 bytes, all of
    them hexadecimal digits after an optional [0x] or [0X]. *)
Definition accepted_hash (s : string) : Prop :=
  String.length s = 66%nat
  ∧ (all_hex s = true
     ∨ ∃ r, (s = "0x" +:+ r ∨ s = "0X" +:+ r) ∧ all_hex r = true).

(** ** Sample data *)

Definition zero_hash : string :=
  "0x0000000000000000000000000000000000000000000000000000000000000000".

(** The same hash with the prefix [0X]. *)
Definition upper_hash : string :=
  "0X0000000000000000000000000000000000000000000000000000000000000000".

(** 66 hexadecimal digits without a prefix. *)
Definition bare_hash : string :=
  "aaaaaaaaaaaaaaaaaaaaaaaaaaaaaaaaaaaaaaaaaaaaaaaaaaaaaaaaaaaaaaaaaa".

(** The signatures of the numbers zero, one and two in 64 bytes. *)
Definition signature_a : string :=
  "1111111111111111111111111111111111111111111111111111111111111111".
Definition signature_b : string :=
  "1111111111111111111111111111111111111111111111111111111111111112".
Definition signature_c : string :=
  "1111111111111111111111111111111111111111111111111111111111111113".

Definition sub_transaction (ok : bool) (signature : string) : json :=
  JDict [("solanaTransactionSignature", JStr signature);
         ("solanaTransactionIsSuccess", JBool ok)].

Definition sample_receipt (status : string) (subs : list json) : json :=
  JDict [("status", JStr status); ("gasUsed", JStr "0x5208");
         ("solanaTransactions", JList subs)].

Definition sample_logs (signature : string) : list string :=
  ["Program log: start"; "Program failed: " +:+ signature].

(** Every operator knows the transaction with the given [gas] and its
    receipt, and answers the extended-receipt request with [response]. *)
Definition sample_world (gas : Z) (response : list (string * json)) : world := {|
  eth_get_transaction := λ _ _, Some gas;
  eth_get_transaction_receipt := λ _ _, true;
  neon_getTransactionReceipt := λ _ _, response;
  solana_get_transaction := λ _ signature, Details (Some (Some (sample_logs signature)))
|}.

(** The same, with the log messages [logs_of] on the settlement chain. *)
Definition world_with_logs (gas : Z) (response : list (string * json))
    (logs_of : string → list string) : world := {|
  eth_get_transaction := λ _ _, Some gas;
  eth_get_transaction_receipt := λ _ _, true;
  neon_getTransactionReceipt := λ _ _, response;
  solana_get_transaction := λ _ signature, Details (Some (Some (logs_of signature)))
|}.

(** Two log messages, the second of two lines. *)
Definition panic_logs (signature : string) : list string :=
  ["Program log: start";
   "Program log: panicked at 'overflow'," +:+ newline +:+ "src/lib.rs:10:5"].

(** A failed receipt with one failed sub-transaction. *)
Definition one_failed : list (string * json) :=
  [("result", sample_receipt "0x0" [sub_transaction false signature_a])].

(** A successful receipt with [gasUsed] 1015. *)
Definition little_gas_used : list (string * json) :=
  [("result", JDict [("status", JStr "0x1"); ("gasUsed", JStr "0x3f7");
                     ("solanaTransactions", JList [])])].

Definition two_failed : list (string * json) :=
  [("result", sample_receipt "0x0"
                [sub_transaction false signature_a; sub_transaction false signature_b;
                 sub_transaction true signature_c])].

Definition sample_arguments (h : string) : arguments := {|
  network := "mainnet";
  tx_hash := h;
  logs := false
|}.

Definition sample_config : config := {|
  rpc := [("first", "http://first"); ("second", "http://second")];
  solana := [("mainnet", "http://solana")]
|}.

(** ** Invariants of a run *)

(** How a piece of the script ends, whatever it returns. *)
Inductive outcome :=
  | Normal
  | Raised (e : exn)
  | Exited (status : Z).

Definition outcome_of {A : Type} (r : ending A) : outcome :=
  match r with
  | Returns _ => Normal
  | Raises e => Raised e
  | Exits c => Exited c
  end.

(** A relation between the state before, the outcome, the events and the
    state after that holds of the steps the script is built from, and of
    steps in sequence; [url] is the endpoint of the settlement chain. *)
Class Invariant (url : string)
    (Q : files → outcome → list event → files → Prop) : Prop := {
  inv_ret fs : Q fs Normal [] fs;
  inv_seq fs fs1 fs2 o t t' :
    Q fs Normal t fs1 → Q fs1 o t' fs2 → Q fs o (t ++ t') fs2;
  inv_raise fs e : Q fs (Raised e) [] fs;
  inv_emit fs e : (∀ path content, e ≠ WriteFile path content) → Q fs Normal [e] fs;
  inv_lookup_write dir signature content :
    Q (Some dir) Normal
      [SolanaGetTransaction url signature; WriteFile (log_file signature) content]
      (Some (<[log_file signature := content]> dir));
  inv_mkdir : Q None Normal [MakeDir "logs"] (Some ∅)
}.

Definition respects {A : Type} (Q : files → outcome → list event → files → Prop)
    (m : M A) : Prop :=
  ∀ fs, Q fs (outcome_of (m fs).1.1) (m fs).1.2 (m fs).2.

(** From [fs] to [fs'] no file of the directory is lost, and the files that
    the events [t] do not write are unchanged. *)
Definition preserves (fs : files) (t : list event) (fs' : files) : Prop :=
  ∀ dir, fs = Some dir →
    ∃ dir', fs' = Some dir'
            ∧ dom dir ⊆ dom dir'
            ∧ ∀ path, path ∉ (written t).*1 → dir' !! path = dir !! path.

(** In [t] every write comes right after the lookup, at [url], of the
    signature that names the file. *)
Definition writes_follow_lookups (url : string) (t : list event) : Prop :=
  ∀ i path content,
    t !! i = Some (WriteFile path content) →
    ∃ j signature,
      i = S j
      ∧ t !! j = Some (SolanaGetTransaction url signature)
      ∧ path = log_file signature.

(** The answers of the settlement chain that leave lines 64-65 without a
    last log line, with the exception they end in. *)
Inductive no_reason : solana_details → exn → Prop :=
  | no_meta : no_reason (Details None) AttributeError
  | no_log_messages : no_reason (Details (Some None)) TypeError
  | empty_log_messages : no_reason (Details (Some (Some []))) IndexError.

(** The four messages that precede [exit(1)]. *)
Definition exit_messages : list string :=
  ["Network not found"; "Invalid transaction hash";
   "Transaction not found in operators"; "Receipt not found in operators"].

(** What the script prints and does before it asks the operators. *)
Definition preamble (fs : files) : list event :=
  (if fs is Some _ then [] else [MakeDir "logs"])
  ++ [Print "Verify transaction exist in operators";
      Print "-------------------------------------"].

(** The events of lines 118-125 for endpoints that return the
    transaction. *)
Definition transaction_events (h : string) (items : list (string * string))
  : list event :=
  items ≫= λ item, [GetTransaction item.2 h; Print (item.1 +:+ ": Exist")].

(** The events of lines 134-142 for endpoints that return the receipt. *)
Definition receipt_events (h : string) (items : list (string * string))
  : list event :=
  items ≫= λ item, [GetTransactionReceipt item.2 h; Print (item.1 +:+ ": Exist")].

(** The two lines of lines 132-133 *)
Definition receipt_banner : list event :=
  [Print (newline +:+ "Verify receipt exist in operators");
   Print "---------------------------------"].

(** The two lines of lines 148-149 *)
Definition debugger_banner : list event :=
  [Print (newline +:+ "Provide more information about transaction");
   Print "------------------------------------------"].

(** A world given by what the operators and the settlement chain know. *)
Definition world_of (known receipt : string → bool)
    (response : list (string * json)) (details : string → solana_details) : world := {|
  eth_get_transaction := λ url _, if known url then Some 42000 else None;
  eth_get_transaction_receipt := λ url _, receipt url;
  neon_getTransactionReceipt := λ _ _, response;
  solana_get_transaction := λ _ signature, details signature
|}.

(** The events of a failed transaction up to the first lookup: the two
    requests, the three lines of the report and the number of failed
    sub-transactions. *)
Definition failed_report (url h : string) (gas gas_used : Z) (percent : string)
    (sub_transactions failed : nat) : list event :=
  [NeonGetTransactionReceipt url h; GetTransaction url h;
   Print "Status: Failed"; Print (gas_line gas gas_used percent);
   Print ("Solana transactions: " +:+ pretty (Z.of_nat sub_transactions));
   Print ("Solana failed transactions: " +:+ pretty (Z.of_nat failed))].

(** A configuration whose only operator has the empty name. *)
Definition unnamed_config : config := {|
  rpc := [("", "http://unnamed")];
  solana := [("mainnet", "http://solana")]
|}.

(** The settlement chain has the logs of [signature_a] and answers [other]
    for every other signature. *)
Definition only_first (other : solana_details) (signature : string) : solana_details :=
  if bool_decide (signature = signature_a)
  then Details (Some (Some (sample_logs signature)))
  else other.

Definition always (b : bool) (url : string) : bool := b.

(** The sub-transactions of [two_failed] and its receipt. *)
Definition two_failed_entries : list (bool * string) :=
  [(false, signature_a); (false, signature_b); (true, signature_c)].

Definition two_failed_receipt : json :=
  sample_receipt "0x0" ((λ entry, sub_transaction entry.1 entry.2) <$> two_failed_entries).

(** A receipt whose second failed sub-transaction has a signature that is
    not base 58. *)
Definition malformed_entries : list (bool * string) :=
  [(false, signature_a); (false, "0OIl")].

Definition malformed_receipt : json :=
  sample_receipt "0x0" ((λ entry, sub_transaction entry.1 entry.2) <$> malformed_entries).

(** * Properties *)

(** ** Strings *)

Lemma append_cons c a b : String c a +:+ b = String c (a +:+ b).
Proof. reflexivity. Qed.

Lemma append_nil a : "" +:+ a = a.
Proof. reflexivity. Qed.

Lemma hex_digit_not_continuation c :
  is_hex_digit c = true → is_continuation c = false.
Proof.
  unfold is_hex_digit, is_continuation, in_range. generalize (code c). intros n.
  rewrite !orb_true_iff, !andb_true_iff, !N.leb_le. intros H.
  apply andb_false_iff. rewrite !N.leb_gt. lia.
Qed.

Lemma all_hex_strlen s : all_hex s = true → py_strlen s = Z.of_nat (String.length s).
Proof.
  induction s as [|c s IH]; cbn [all_hex py_strlen String.length]; [done|].
  intros [Hc Hs]%andb_true_iff.
  rewrite (hex_digit_not_continuation c Hc), (IH Hs). lia.
Qed.

Lemma remove_0x_prefix_Some s r :
  remove_0x_prefix s = Some r → s = "0x" +:+ r ∨ s = "0X" +:+ r.
Proof.
  destruct s as [|a [|b s]]; cbn; try discriminate.
  repeat case_bool_decide; cbn; try discriminate; intros [= <-]; subst; auto.
Qed.

Lemma remove_0x_prefix_lower r : remove_0x_prefix ("0x" +:+ r) = Some r.
Proof. reflexivity. Qed.

Lemma remove_0x_prefix_upper r : remove_0x_prefix ("0X" +:+ r) = Some r.
Proof. reflexivity. Qed.

Lemma hex_text_strlen s : hex_text s = true → py_strlen s = Z.of_nat (String.length s).
Proof.
  unfold hex_text. intros [H|H]%orb_true_iff; [by apply all_hex_strlen|].
  destruct (remove_0x_prefix s) as [r|] eqn:Hr; [|done].
  apply all_hex_strlen in H.
  apply remove_0x_prefix_Some in Hr as [-> | ->];
    rewrite !append_cons, append_nil; cbn [py_strlen String.length];
    rewrite H, !Nat2Z.inj_succ;
    change (is_continuation "0") with false;
    [change (is_continuation "x") with false | change (is_continuation "X") with false];
    lia.
Qed.

Lemma valid_hash_spec s : valid_hash s = true ↔ accepted_hash s.
Proof.
  unfold valid_hash, accepted_hash, is_hex.
  rewrite !andb_true_iff, Z.eqb_eq, negb_true_iff, bool_decide_eq_false. split.
  - intros [[_ Hhex] Hlen]. rewrite (hex_text_strlen _ Hhex) in Hlen. split; [lia|].
    unfold hex_text in Hhex. apply orb_true_iff in Hhex as [H|H]; [by left|right].
    destruct (remove_0x_prefix s) as [r|] eqn:Hr; [|done].
    exists r. split; [by apply remove_0x_prefix_Some|done].
  - intros [Hlen Hform].
    assert (hex_text s = true) as Hhex.
    { unfold hex_text. destruct Hform as [->|(r & [-> | ->] & Hr)]; [done|..].
      - rewrite remove_0x_prefix_lower, Hr. apply orb_true_r.
      - rewrite remove_0x_prefix_upper, Hr. apply orb_true_r. }
    split; [split; [by intros ->|done]|]. rewrite (hex_text_strlen _ Hhex). lia.
Qed.

Lemma pattern_is_valid s : matches_pattern s = true → valid_hash s = true.
Proof.
  destruct s as [|a [|b r]]; cbn [matches_pattern]; try discriminate.
  rewrite !andb_true_iff, !bool_decide_eq_true, Nat.eqb_eq.
  intros [[[-> ->] Hr] Hlen]. apply valid_hash_spec. split.
  - cbn. by rewrite Hlen.
  - right. exists r. auto.
Qed.

Lemma valid_hash_hex_text s : valid_hash s = true → hex_text s = true.
Proof. unfold valid_hash, is_hex. by intros [[_ ?]%andb_true_iff _]%andb_true_iff. Qed.

Lemma single_line_app_newline a b : single_line (a +:+ newline +:+ b) = false.
Proof.
  induction a as [|c a IH]; [done|].
  rewrite append_cons. cbn [single_line]. rewrite IH. apply andb_false_r.
Qed.

Lemma last_line_single s : single_line s = true → last_line s = s.
Proof.
  destruct s as [|c s]; [done|]. cbn [single_line last_line].
  intros [Hc Hs]%andb_true_iff. apply negb_true_iff in Hc. by rewrite Hc, Hs.
Qed.

Lemma last_line_app a b : last_line (a +:+ newline +:+ b) = last_line b.
Proof.
  induction a as [|c a IH]; [done|].
  rewrite append_cons. cbn [last_line]. rewrite IH, single_line_app_newline.
  by destruct (is_newline c).
Qed.

(** The last line of the written text is the last log message when that
    message has no line break. *)
Lemma last_line_join l x :
  last l = Some x → single_line x = true → last_line (join newline l) = x.
Proof.
  intros Hlast Hx. induction l as [|y [|z l] IH]; [done| |].
  - injection Hlast as ->. by apply last_line_single.
  - change (join newline (y :: z :: l)) with (y +:+ newline +:+ join newline (z :: l)).
    rewrite last_line_app. by apply IH.
Qed.

(** [join] is the [concat] of the standard library. *)
Lemma join_concat sep l : join sep l = String.concat sep l.
Proof. induction l as [|x [|y l] IH]; [done..|]. cbn in *. by rewrite IH. Qed.

Lemma last_default (l : list string) : l ≠ [] → last l = Some (default "" (last l)).
Proof. intros Hl. destruct (last l) eqn:E; [done|]. by apply last_None in E. Qed.

(** ** Running a piece of the script *)

Lemma after_nil {A} (x : ending A * list event * files) : after [] x = x.
Proof. by destruct x as [[r t] fs]. Qed.

Lemma after_after {A} t t' (x : ending A * list event * files) :
  after t (after t' x) = after (t ++ t') x.
Proof. destruct x as [[r t''] fs]. cbn. by rewrite (assoc (++)). Qed.

Section Run.
Context {A B : Type}.
Implicit Types (f : A → M B) (fs : files).

Lemma run_lift_val (a : A) f fs : (lift (Val a) ≫= f) fs = f a fs.
Proof. unfold mbind, M_bind; cbn. apply after_nil. Qed.

Lemma run_lift_exc e f fs : (lift (Exc e) ≫= f) fs = (Raises e, [], fs).
Proof. reflexivity. Qed.

Lemma run_ret (a : A) f fs : (mret a ≫= f) fs = f a fs.
Proof. unfold mbind, M_bind; cbn. apply after_nil. Qed.

Lemma run_exit c f fs : (exit c ≫= f) fs = (Exits c, [], fs).
Proof. reflexivity. Qed.

Lemma run_returns (m : M A) f fs a t fs' :
  m fs = (Returns a, t, fs') → (m ≫= f) fs = after t (f a fs').
Proof. unfold mbind, M_bind. by intros ->. Qed.

Lemma run_raises (m : M A) f fs e t fs' :
  m fs = (Raises e, t, fs') → (m ≫= f) fs = (Raises e, t, fs').
Proof. unfold mbind, M_bind. by intros ->. Qed.
End Run.

Lemma after_events {A} t (x : ending A * list event * files) :
  (after t x).1.2 = t ++ x.1.2.
Proof. by destruct x as [[r t'] fs]. Qed.

Lemma run_assoc {A B C} (m : M A) (f : A → M B) (g : B → M C) fs :
  ((m ≫= f) ≫= g) fs = (m ≫= λ a, f a ≫= g) fs.
Proof.
  unfold mbind, M_bind. destruct (m fs) as [[[a|e|c] t] fs1]; [|done..].
  destruct (f a fs1) as [[[b|e|c] t'] fs2]; cbn [after]; [|done..].
  by rewrite after_after.
Qed.

Lemma run_emit {B} e (f : unit → M B) fs : (emit e ≫= f) fs = after [e] (f tt fs).
Proof. reflexivity. Qed.

Lemma run_print {B} line (f : unit → M B) fs :
  (print line ≫= f) fs = after [Print line] (f tt fs).
Proof. reflexivity. Qed.

Lemma run_write {B} path content (f : unit → M B) dir :
  (write_file path content ≫= f) (Some dir) =
    after [WriteFile path content] (f tt (Some (<[path := content]> dir))).
Proof. reflexivity. Qed.

Ltac step :=
  first
    [ rewrite run_assoc | rewrite run_lift_val | rewrite run_lift_exc | rewrite run_ret
    | rewrite run_emit | rewrite run_print | rewrite run_exit | rewrite run_write
    | rewrite after_after | rewrite after_nil ];
  cbv beta.

(** *** The requests of web3 *)

Section Requests.
Context {B : Type}.
Variables (w : world) (url h : string) (fs : files).

Lemma run_get_transaction gas (f : Z → M B) :
  (hex_bytes h <=? 32)%nat = true →
  eth_get_transaction w url h = Some gas →
  (get_transaction w url h ≫= f) fs = after [GetTransaction url h] (f gas fs).
Proof.
  intros Hbytes Hgas. unfold get_transaction, bytes32. rewrite Hbytes.
  repeat step. rewrite Hgas. by repeat step.
Qed.

Lemma run_get_transaction_missing (f : Z → M B) :
  (hex_bytes h <=? 32)%nat = true →
  eth_get_transaction w url h = None →
  (get_transaction w url h ≫= f) fs
  = (Raises TransactionNotFound, [GetTransaction url h], fs).
Proof.
  intros Hbytes Hgas. unfold get_transaction, bytes32. rewrite Hbytes.
  repeat step. rewrite Hgas. by repeat step.
Qed.

Lemma run_get_transaction_long (f : Z → M B) :
  (hex_bytes h <=? 32)%nat = false →
  (get_transaction w url h ≫= f) fs = (Raises ValueError, [], fs).
Proof.
  intros Hbytes. unfold get_transaction, bytes32. rewrite Hbytes. by repeat step.
Qed.

Lemma run_get_transaction_receipt (f : unit → M B) :
  (hex_bytes h <=? 32)%nat = true →
  eth_get_transaction_receipt w url h = true →
  (get_transaction_receipt w url h ≫= f) fs
  = after [GetTransactionReceipt url h] (f tt fs).
Proof.
  intros Hbytes Hreceipt. unfold get_transaction_receipt, bytes32.
  rewrite Hbytes. repeat step. rewrite Hreceipt. by repeat step.
Qed.

Lemma run_get_transaction_receipt_missing (f : unit → M B) :
  (hex_bytes h <=? 32)%nat = true →
  eth_get_transaction_receipt w url h = false →
  (get_transaction_receipt w url h ≫= f) fs
  = (Raises TransactionNotFound, [GetTransactionReceipt url h], fs).
Proof.
  intros Hbytes Hreceipt. unfold get_transaction_receipt, bytes32.
  rewrite Hbytes. repeat step. rewrite Hreceipt. by repeat step.
Qed.
End Requests.

(** ** The extended receipt *)

Lemma status_of_str status :
  status_of (JStr status) = if decide (status = "0x0") then "Failed" else "Success".
Proof. unfold status_of, eq_str. by case_bool_decide; case_decide. Qed.

Lemma collect_failed_entries items entries acc :
  Forall2 is_sub_transaction items entries →
  collect_failed items acc = Val (acc ++ (JStr <$> failed_signatures entries)).
Proof.
  intros H. revert acc.
  induction H as [|j [ok signature] items entries [Hflag Hsig] _ IH]; intros acc.
  - cbn. by rewrite (right_id [] (++)).
  - cbn [collect_failed]. cbn in Hflag, Hsig. rewrite Hflag. cbn [mbind py_bind is_False].
    unfold failed_signatures. rewrite filter_cons. destruct ok; cbn [fst].
    + rewrite decide_False by done. apply IH.
    + rewrite decide_True by done. rewrite Hsig. cbn [mbind py_bind].
      rewrite IH, fmap_cons, <- (assoc (++)). reflexivity.
Qed.

(** C6: a response without ["result"] is printed and nothing else happens. *)
Theorem missing_result_is_reported w h url surl fs :
  dict_get "result" (neon_getTransactionReceipt w url h) = None →
  debug_transaction w h url surl fs =
    (Returns tt,
     [NeonGetTransactionReceipt url h;
      PrintValue "Got a problem with transaction info: "
        (JDict (neon_getTransactionReceipt w url h))],
     fs).
Proof.
  intros H. unfold debug_transaction. step.
  unfold dict_has. rewrite H. reflexivity.
Qed.

Section Report.
Variables (w : world) (h url surl : string) (fs : files).
Variables (tx_info : json) (status : string) (gas gas_used : Z).
Variable entries : list (bool * string).
Hypothesis Hanswers : operator_answers w url h tx_info gas.
Hypothesis Hreceipt : extended_receipt tx_info status gas_used entries.

(** Lines 24-40: the two requests and the status line. *)
Lemma debug_transaction_status :
  debug_transaction w h url surl fs =
    after [NeonGetTransactionReceipt url h; GetTransaction url h;
           Print ("Status: " +:+ status_of (JStr status))]
      ((percent ← lift (percent_of gas_used gas);
        print (gas_line gas gas_used percent);;
        print ("Solana transactions: " +:+ pretty (Z.of_nat (length entries)));;
        if decide (status = "0x0") then debug_failed w h surl tx_info
        else mret tt) fs).
Proof.
  destruct Hanswers as [Hhash Hbytes Hresult Hgas].
  destruct Hreceipt as [Hstatus (text & Hfield & Hused) (items & Htxs & Hitems)].
  unfold debug_transaction. step.
  unfold dict_has. rewrite Hresult. cbn [negb getitem]. rewrite Hresult.
  step. rewrite Hstatus. step. unfold HexBytes. rewrite Hhash. step.
  rewrite (run_get_transaction _ _ _ _ _ _ Hbytes Hgas). rewrite Hfield. step. cbn [py_int16]. rewrite Hused. step.
  rewrite Htxs. step. cbn [py_len]. step. step. rewrite !after_after. cbn [app].
  rewrite (Forall2_length _ _ _ Hitems), status_of_str.
  by case_decide.
Qed.

(** Lines 24-42 when the percentage can be computed. *)
Lemma debug_transaction_report percent :
  gas ≠ 0 →
  float_percent gas_used gas = Some percent →
  debug_transaction w h url surl fs =
    after [NeonGetTransactionReceipt url h; GetTransaction url h;
           Print ("Status: " +:+ status_of (JStr status));
           Print (gas_line gas gas_used percent);
           Print ("Solana transactions: " +:+ pretty (Z.of_nat (length entries)))]
      ((if decide (status = "0x0") then debug_failed w h surl tx_info
        else mret tt) fs).
Proof.
  intros Hgas Hpercent. rewrite debug_transaction_status.
  unfold percent_of. rewrite (decide_False (P := gas = 0)) by done. rewrite Hpercent.
  step. step. step. by rewrite !after_after.
Qed.

(** Lines 47-57 *)
Lemma debug_failed_collect :
  debug_failed w h surl tx_info fs =
    match failed_signatures entries with
    | [] => (Returns tt, [Print (not_found_message h)], fs)
    | first :: rest =>
        after [Print ("Solana failed transactions: "
                      +:+ pretty (Z.of_nat (length (failed_signatures entries))))]
          ((r ← lookup_failed w h surl (JStr first) (JStr <$> rest) [];
            match r with
            | None => mret tt
            | Some (failed_sol_tx, reasons) =>
                print ("Failed Solana transaction: " +:+ failed_sol_tx);;
                print "Reasons:";;
                print_reasons reasons;;
                print "Full log saved in 'logs' folder"
            end) fs)
    end.
Proof.
  destruct Hreceipt as [_ _ (items & Htxs & Hitems)].
  unfold debug_failed. rewrite Htxs. step. cbn [py_iter]. step.
  rewrite (collect_failed_entries _ _ [] Hitems). step. cbn [app].
  destruct (failed_signatures entries) as [|first rest] eqn:E; [done|].
  rewrite fmap_cons. step. cbn [length]. by rewrite length_fmap.
Qed.
End Report.


(** ** The lookups of the failed sub-transactions *)

Lemma dict_get_set_eq {V} k (v : V) d : dict_get k (dict_set k v d) = Some v.
Proof.
  induction d as [|[k' v'] d IH]; cbn.
  - by rewrite decide_True.
  - destruct (decide (k = k')) as [->|Hne]; cbn.
    + by rewrite decide_True.
    + by rewrite decide_False.
Qed.

Lemma dict_get_set_ne {V} k k' (v : V) d :
  k ≠ k' → dict_get k' (dict_set k v d) = dict_get k' d.
Proof.
  intros Hne. induction d as [|[k'' v''] d IH]; cbn.
  - by rewrite decide_False.
  - destruct (decide (k = k'')) as [->|Hne']; cbn.
    + by rewrite !decide_False.
    + by rewrite IH.
Qed.

Lemma dict_get_elem_of {V} k (v : V) d : dict_get k d = Some v → (k, v) ∈ d.
Proof.
  induction d as [|[k' v'] d IH]; cbn; [done|].
  case_decide as Hk.
  - intros [= ->]. subst. left.
  - intros H. right. auto.
Qed.

Lemma dict_get_NoDup {V} k (v : V) d : NoDup d.*1 → (k, v) ∈ d → dict_get k d = Some v.
Proof.
  induction d as [|[k' v'] d IH]; cbn; [by intros _ ?%elem_of_nil|].
  intros [Hk' Hd]%NoDup_cons [[= -> ->]|Hin]%elem_of_cons.
  - by rewrite decide_True.
  - rewrite decide_False; [auto|]. intros ->. apply Hk'.
    apply list_elem_of_fmap. by exists (k', v).
Qed.

Lemma length_append a b : String.length (a +:+ b) = (String.length a + String.length b)%nat.
Proof. induction a as [|c a IH]; [done|]. rewrite append_cons. cbn. by rewrite IH. Qed.

Lemma append_inj_r s a b : a +:+ s = b +:+ s → a = b.
Proof.
  revert b. induction a as [|c a IH]; intros [|c' b] H.
  - done.
  - apply (f_equal String.length) in H. rewrite append_nil, append_cons in H.
    cbn [String.length] in H. rewrite length_append in H. lia.
  - apply (f_equal String.length) in H. rewrite append_nil, append_cons in H.
    cbn [String.length] in H. rewrite length_append in H. lia.
  - rewrite !append_cons in H. injection H as -> H. f_equal. by apply IH.
Qed.

#[local] Instance log_file_inj : Inj (=) (=) log_file.
Proof.
  intros a b H. unfold log_file in H.
  apply (inj (String.append "logs/")) in H. by apply append_inj_r in H.
Qed.

Lemma record_reasons_lookup logs_of reasons signatures signature :
  signature ∈ signatures →
  dict_get signature (record_reasons logs_of reasons signatures)
  = Some (default "" (last (logs_of signature))).
Proof.
  unfold record_reasons.
  induction signatures as [|x l IH] using rev_ind; [by intros ?%elem_of_nil|].
  rewrite foldl_snoc.
  intros [Hin|Hx]%elem_of_app; [|apply list_elem_of_singleton in Hx as ->].
  - destruct (decide (x = signature)) as [->|Hne].
    + apply dict_get_set_eq.
    + rewrite dict_get_set_ne by done. auto.
  - apply dict_get_set_eq.
Qed.

Lemma store_logs_lookup logs_of dir signatures signature :
  signature ∈ signatures →
  store_logs logs_of dir signatures !! log_file signature
  = Some (log_text logs_of signature).
Proof.
  unfold store_logs.
  induction signatures as [|x l IH] using rev_ind; [by intros ?%elem_of_nil|].
  rewrite foldl_snoc.
  intros [Hin|Hx]%elem_of_app; [|apply list_elem_of_singleton in Hx as ->].
  - destruct (decide (x = signature)) as [->|Hne].
    + apply lookup_insert_eq.
    + rewrite lookup_insert_ne; [auto|]. by intros ?%(inj log_file).
  - apply lookup_insert_eq.
Qed.

Lemma looked_up_lookup_events url logs_of signatures :
  looked_up (lookup_events url logs_of signatures) = (λ s, (url, s)) <$> signatures.
Proof. induction signatures as [|x l IH]; [done|]. cbn. f_equal. exact IH. Qed.

Lemma written_lookup_events url logs_of signatures :
  written (lookup_events url logs_of signatures)
  = (λ s, (log_file s, log_text logs_of s)) <$> signatures.
Proof. induction signatures as [|x l IH]; [done|]. cbn. f_equal. exact IH. Qed.

Lemma printed_lookup_events url logs_of signatures :
  printed (lookup_events url logs_of signatures) = [].
Proof. induction signatures as [|x l IH]; [done|]. exact IH. Qed.

Lemma print_reasons_run reasons fs :
  print_reasons reasons fs
  = (Returns tt, (λ kv, Print (reason_line kv.1 kv.2)) <$> reasons, fs).
Proof.
  induction reasons as [|[tx reason] l IH]; [done|].
  cbn [print_reasons]. step. rewrite IH. reflexivity.
Qed.

(** Lines 58-69 when every signature has logs: one lookup and one write per
    signature, and the loop variable ends as the last signature. *)
Lemma lookup_failed_logs w h url logs_of first rest reasons dir :
  Forall (has_logs w url logs_of) (first :: rest) →
  lookup_failed w h url (JStr first) (JStr <$> rest) reasons (Some dir) =
    (Returns (Some (default first (last rest),
                    record_reasons logs_of reasons (first :: rest))),
     lookup_events url logs_of (first :: rest),
     Some (store_logs logs_of dir (first :: rest))).
Proof.
  revert first reasons dir.
  induction rest as [|next rest IH]; intros first reasons dir Hall;
    apply Forall_cons in Hall as [[Hsig Hdetails Hsome] Hrest];
    cbn [lookup_failed fmap list_fmap signature_from_string];
    rewrite Hsig; step; step; rewrite Hdetails; step;
    cbn [last_item];
    rewrite (last_default _ Hsome); step; cbn [default]; step.
  - reflexivity.
  - rewrite (IH next _ _ Hrest). cbn [after]. rewrite last_cons.
    f_equal. destruct (last rest); reflexivity.
Qed.


(** ** The debugger *)

Lemma looked_up_app t t' : looked_up (t ++ t') = looked_up t ++ looked_up t'.
Proof. apply omap_app. Qed.

Lemma written_app t t' : written (t ++ t') = written t ++ written t'.
Proof. apply omap_app. Qed.

Lemma printed_app t t' : printed (t ++ t') = printed t ++ printed t'.
Proof. apply omap_app. Qed.

Lemma looked_up_prints {A} (f : A → string) l : looked_up ((λ x, Print (f x)) <$> l) = [].
Proof. induction l as [|x l IH]; [done|]. exact IH. Qed.

Lemma written_prints {A} (f : A → string) l : written ((λ x, Print (f x)) <$> l) = [].
Proof. induction l as [|x l IH]; [done|]. exact IH. Qed.

Lemma printed_prints {A} (f : A → string) l : printed ((λ x, Print (f x)) <$> l) = f <$> l.
Proof. induction l as [|x l IH]; [done|]. cbn. f_equal. exact IH. Qed.

Lemma looked_up_print line t : looked_up (Print line :: t) = looked_up t.
Proof. reflexivity. Qed.

Lemma written_print line t : written (Print line :: t) = written t.
Proof. reflexivity. Qed.

Lemma printed_print line t : printed (Print line :: t) = line :: printed t.
Proof. reflexivity. Qed.

Lemma looked_up_nil : looked_up [] = [].
Proof. reflexivity. Qed.

Lemma written_nil : written [] = [].
Proof. reflexivity. Qed.

Lemma printed_nil : printed [] = [].
Proof. reflexivity. Qed.

Create Rewrite HintDb trace.
#[local] Hint Rewrite looked_up_app written_app printed_app
  @looked_up_prints @written_prints @printed_prints
  looked_up_print written_print printed_print
  looked_up_nil written_nil printed_nil : trace.

Section Failed.
Variables (w : world) (h url surl : string) (dir : gmap string string).
Variables (tx_info : json) (gas gas_used : Z) (percent : string).
Variable entries : list (bool * string).
Variable logs_of : string → list string.
Hypothesis Hanswers : operator_answers w url h tx_info gas.
Hypothesis Hreceipt : extended_receipt tx_info "0x0" gas_used entries.
Hypothesis Hgas : gas ≠ 0.
Hypothesis Hpercent : float_percent gas_used gas = Some percent.

Let report : list event :=
  [NeonGetTransactionReceipt url h; GetTransaction url h;
   Print "Status: Failed"; Print (gas_line gas gas_used percent);
   Print ("Solana transactions: " +:+ pretty (Z.of_nat (length entries)))].

Lemma debug_transaction_none_flagged fs :
  failed_signatures entries = [] →
  debug_transaction w h url surl fs
  = (Returns tt, report ++ [Print (not_found_message h)], fs).
Proof using Hanswers Hreceipt Hgas Hpercent.
  intros Hnone.
  rewrite (debug_transaction_report _ _ _ _ _ _ _ _ _ _ Hanswers Hreceipt _ Hgas Hpercent).
  rewrite decide_True by done.
  rewrite (debug_failed_collect _ _ _ _ _ _ _ _ Hreceipt), Hnone. reflexivity.
Qed.

Lemma debug_transaction_flagged first rest :
  failed_signatures entries = first :: rest →
  Forall (has_logs w surl logs_of) (first :: rest) →
  debug_transaction w h url surl (Some dir)
  = (Returns tt,
     report
     ++ [Print ("Solana failed transactions: "
                +:+ pretty (Z.of_nat (length (first :: rest))))]
     ++ lookup_events surl logs_of (first :: rest)
     ++ [Print ("Failed Solana transaction: " +:+ default first (last rest));
         Print "Reasons:"]
     ++ ((λ kv, Print (reason_line kv.1 kv.2))
           <$> record_reasons logs_of [] (first :: rest))
     ++ [Print "Full log saved in 'logs' folder"],
     Some (store_logs logs_of dir (first :: rest))).
Proof using Hanswers Hreceipt Hgas Hpercent.
  intros Hsome Hlogs.
  rewrite (debug_transaction_report _ _ _ _ _ _ _ _ _ _ Hanswers Hreceipt _ Hgas Hpercent).
  rewrite decide_True by done.
  rewrite (debug_failed_collect _ _ _ _ _ _ _ _ Hreceipt), Hsome.
  rewrite (run_returns _ _ _ _ _ _ (lookup_failed_logs _ _ _ _ _ _ _ _ Hlogs)).
  do 2 step. unfold mbind at 1, M_bind at 1. rewrite print_reasons_run.
  reflexivity.
Qed.
End Failed.

(** C7: a failed status without a flagged sub-transaction ends with the
    diagnostic, after the report; nothing is looked up or written. *)
Theorem failed_without_flagged w h url surl fs tx_info gas gas_used percent entries :
  operator_answers w url h tx_info gas →
  extended_receipt tx_info "0x0" gas_used entries →
  gas ≠ 0 →
  float_percent gas_used gas = Some percent →
  failed_signatures entries = [] →
  debug_transaction w h url surl fs
  = (Returns tt,
     [NeonGetTransactionReceipt url h; GetTransaction url h;
      Print "Status: Failed"; Print (gas_line gas gas_used percent);
      Print ("Solana transactions: " +:+ pretty (Z.of_nat (length entries)));
      Print ("Transaction " +:+ h
             +:+ " is failed but no failed solana transaction found")],
     fs).
Proof. intros. by eapply debug_transaction_none_flagged. Qed.

(** C3, as the script has it: for a failed status with N flagged
    sub-transactions whose lookups all return at least one log message, the
    debugger returns after exactly N lookups and N writes, one per flagged
    sub-transaction in order; the write for a signature goes to
    [logs/<signature>.log] (N different files when the signatures differ)
    and holds its log messages joined by a line break; the reason printed
    for a signature is its last log message, which is the last line of the
    file when that message has no line break. *)
Theorem failed_transaction_logs w h url surl dir tx_info gas gas_used percent
    entries logs_of :
  operator_answers w url h tx_info gas →
  extended_receipt tx_info "0x0" gas_used entries →
  gas ≠ 0 →
  float_percent gas_used gas = Some percent →
  Forall (has_logs w surl logs_of) (failed_signatures entries) →
  let signatures := failed_signatures entries in
  let '(r, t, fs') := debug_transaction w h url surl (Some dir) in
  r = Returns tt
  ∧ looked_up t = (λ s, (surl, s)) <$> signatures
  ∧ written t
    = (λ s, ("logs/" +:+ s +:+ ".log", String.concat (String "010" "") (logs_of s)))
        <$> signatures
  ∧ length (looked_up t) = length signatures
  ∧ length (written t) = length signatures
  ∧ (NoDup signatures → NoDup (written t).*1)
  ∧ ∀ s, s ∈ signatures →
      ∃ content reason,
        fs' ≫= (.!! "logs/" +:+ s +:+ ".log") = Some content
        ∧ content = String.concat (String "010" "") (logs_of s)
        ∧ last (logs_of s) = Some reason
        ∧ "    " +:+ s +:+ ": " +:+ reason ∈ printed t
        ∧ (single_line reason = true → last_line content = reason).
Proof.
  intros Hanswers Hreceipt Hgas Hpercent Hlogs signatures. subst signatures.
  destruct (failed_signatures entries) as [|first rest] eqn:Hsigs.
  - rewrite (debug_transaction_none_flagged _ _ _ _ _ _ _ _ _
               Hanswers Hreceipt Hgas Hpercent _ Hsigs).
    repeat split; try done. by intros s ?%elem_of_nil.
  - rewrite (debug_transaction_flagged _ _ _ _ _ _ _ _ _ _ logs_of
               Hanswers Hreceipt Hgas Hpercent _ _ Hsigs Hlogs).
    assert (∀ t, looked_up
              ([NeonGetTransactionReceipt url h; GetTransaction url h;
                Print "Status: Failed"; Print (gas_line gas gas_used percent);
                Print ("Solana transactions: " +:+ pretty (Z.of_nat (length entries)))]
               ++ t) = looked_up t) as Hl by done.
    assert (∀ t, written
              ([NeonGetTransactionReceipt url h; GetTransaction url h;
                Print "Status: Failed"; Print (gas_line gas gas_used percent);
                Print ("Solana transactions: " +:+ pretty (Z.of_nat (length entries)))]
               ++ t) = written t) as Hw by done.
    rewrite Hl, Hw. autorewrite with trace.
    rewrite looked_up_lookup_events, written_lookup_events, printed_lookup_events.
    cbn [app]. rewrite !(right_id [] (++)), !length_fmap.
    assert (∀ s, log_text logs_of s = String.concat (String "010" "") (logs_of s))
      as Htext by (intros s; apply join_concat).
    assert ((λ s, (log_file s, log_text logs_of s)) <$> first :: rest
            = (λ s, ("logs/" +:+ s +:+ ".log",
                     String.concat (String "010" "") (logs_of s))) <$> first :: rest)
      as Hwritten.
    { apply list_fmap_ext. intros _ s _. by rewrite Htext. }
    rewrite Hwritten. do 5 (split; [done|]). split.
    { intros Hdup. rewrite <- list_fmap_compose.
      apply (NoDup_fmap_2 log_file), Hdup. }
    intros s Hs.
    destruct (proj1 (Forall_forall _ _) Hlogs s Hs) as [_ _ Hsome].
    exists (log_text logs_of s), (default "" (last (logs_of s))).
    split; [|split; [done|split; [by apply last_default|split]]].
    + cbn [mbind option_bind]. by apply store_logs_lookup.
    + assert (reason_line s (default "" (last (logs_of s)))
              ∈ (λ kv, reason_line kv.1 kv.2)
                  <$> record_reasons logs_of [] (first :: rest)) as Hin.
      { apply list_elem_of_fmap. exists (s, default "" (last (logs_of s))).
        split; [done|]. apply dict_get_elem_of. by apply record_reasons_lookup. }
      change ("    " +:+ s +:+ ": " +:+ default "" (last (logs_of s)))
        with (reason_line s (default "" (last (logs_of s)))).
      repeat (rewrite elem_of_app || rewrite elem_of_cons). tauto.
    + intros Hline. apply last_line_join; [by apply last_default|done].
Qed.

(** C8, at a receipt with two failed sub-transactions: the line
    "Failed Solana transaction" names the second one only. *)
Theorem final_line_names_last_only :
  printed (debug_transaction (sample_world 42000 two_failed) zero_hash
             "http://first" "http://solana" (Some ∅)).1.2
  = ["Status: Failed";
     "Estimated gas: 42000 | Gas used: 21000 50.00%";
     "Solana transactions: 3";
     "Solana failed transactions: 2";
     "Failed Solana transaction: " +:+ signature_b;
     "Reasons:";
     reason_line signature_a ("Program failed: " +:+ signature_a);
     reason_line signature_b ("Program failed: " +:+ signature_b);
     "Full log saved in 'logs' folder"].
Proof. vm_compute. reflexivity. Qed.


(** *** A successful status *)

(** Whatever else the receipt holds, a status other than ["0x0"] lets the
    debugger touch neither the settlement chain nor the files. *)
Lemma success_is_quiet w h url surl fs tx_info status_field :
  dict_get "result" (neon_getTransactionReceipt w url h) = Some tx_info →
  getitem tx_info "status" = Val status_field →
  eq_str status_field "0x0" = false →
  let '(_, t, fs') := debug_transaction w h url surl fs in
  looked_up t = [] ∧ written t = [] ∧ fs' = fs.
Proof.
  intros Hresult Hstatus Hne. unfold debug_transaction. step.
  unfold dict_has. rewrite Hresult. cbn [negb getitem]. rewrite Hresult.
  step. rewrite Hstatus. step.
  unfold status_of. rewrite Hne.
  assert (bool_decide ("Success" = "Success") = true) as -> by done.
  unfold get_transaction.
  repeat first
    [ step
    | match goal with
      | |- context [(lift ?r ≫= _) _] => destruct r
      end ];
    cbn [after app]; repeat split; reflexivity.
Qed.

(** C4: with a status other than ["0x0"] the debugger looks nothing up and
    writes nothing; for a well-formed receipt it returns right after the
    three lines of the report. *)
Theorem success_short_circuits w h url surl fs tx_info status_field :
  dict_get "result" (neon_getTransactionReceipt w url h) = Some tx_info →
  getitem tx_info "status" = Val status_field →
  eq_str status_field "0x0" = false →
  let '(r, t, fs') := debug_transaction w h url surl fs in
  looked_up t = [] ∧ written t = [] ∧ fs' = fs
  ∧ ∀ status gas gas_used entries percent,
      operator_answers w url h tx_info gas →
      extended_receipt tx_info status gas_used entries →
      gas ≠ 0 →
      float_percent gas_used gas = Some percent →
      r = Returns tt
      ∧ t = [NeonGetTransactionReceipt url h; GetTransaction url h;
             Print "Status: Success"; Print (gas_line gas gas_used percent);
             Print ("Solana transactions: " +:+ pretty (Z.of_nat (length entries)))].
Proof.
  intros Hresult Hstatus Hne.
  pose proof (success_is_quiet w h url surl fs _ _ Hresult Hstatus Hne) as Hquiet.
  destruct (debug_transaction w h url surl fs) as [[r t] fs'] eqn:Hrun.
  destruct Hquiet as (Hl & Hw & Hfs). do 3 (split; [done|]).
  intros status gas gas_used entries percent Hanswers Hreceipt Hgas Hpercent.
  rewrite (debug_transaction_report _ _ _ _ _ _ _ _ _ _ Hanswers Hreceipt _ Hgas Hpercent)
    in Hrun.
  pose proof (receipt_status _ _ _ _ Hreceipt) as Hs.
  rewrite Hstatus in Hs. injection Hs as ->.
  rewrite status_of_str in Hrun.
  unfold eq_str in Hne. apply bool_decide_eq_false in Hne.
  rewrite !decide_False in Hrun by done.
  by injection Hrun as <- <- _.
Qed.

(** *** Division by the gas of the transaction *)

Lemma after_ending {A} t (x : ending A * list event * files) : (after t x).1.1 = x.1.1.
Proof. by destruct x as [[r t'] fs]. Qed.

Section NoDivisionError.
Context {A B : Type}.

Lemma calm_ret (a : A) : no_division_error (mret a).
Proof. by intros fs. Qed.

Lemma calm_lift (r : py A) : r ≠ Exc ZeroDivisionError → no_division_error (lift r).
Proof. intros Hr fs. destruct r as [a|e]; cbn; congruence. Qed.

Lemma calm_bind (m : M A) (f : A → M B) :
  no_division_error m → (∀ a, no_division_error (f a)) →
  no_division_error (m ≫= f).
Proof.
  intros Hm Hf fs. specialize (Hm fs). unfold mbind, M_bind.
  destruct (m fs) as [[[a|e|c] t] fs']; cbn [fst] in *; [|congruence..].
  rewrite after_ending. apply Hf.
Qed.

Lemma calm_bind_returns (m : M A) (f : A → M B) :
  no_division_error m →
  (∀ a fs t fs', m fs = (Returns a, t, fs') → no_division_error (f a)) →
  no_division_error (m ≫= f).
Proof.
  intros Hm Hf fs. specialize (Hm fs). unfold mbind, M_bind.
  destruct (m fs) as [[[a|e|c] t] fs'] eqn:E; cbn [fst] in *; [|congruence..].
  rewrite after_ending. by eapply Hf.
Qed.

Lemma calm_bind_lift (r : py A) (f : A → M B) :
  r ≠ Exc ZeroDivisionError → (∀ a, r = Val a → no_division_error (f a)) →
  no_division_error (lift r ≫= f).
Proof.
  intros Hr Hf fs. destruct r as [a|e].
  - rewrite run_lift_val. by apply Hf.
  - rewrite run_lift_exc. cbn. congruence.
Qed.
End NoDivisionError.

Lemma calm_emit e : no_division_error (emit e).
Proof. by intros fs. Qed.

Lemma calm_print line : no_division_error (print line).
Proof. by intros fs. Qed.

Lemma calm_write path content : no_division_error (write_file path content).
Proof. by intros [dir|]. Qed.

Lemma getitem_calm j k : getitem j k ≠ Exc ZeroDivisionError.
Proof. destruct j; cbn; try done. by destruct (dict_get k d). Qed.

Lemma py_iter_calm j : py_iter j ≠ Exc ZeroDivisionError.
Proof. by destruct j. Qed.

Lemma py_len_calm j : py_len j ≠ Exc ZeroDivisionError.
Proof. by destruct j. Qed.

Lemma py_int16_calm j : py_int16 j ≠ Exc ZeroDivisionError.
Proof.
  destruct j; cbn; try done. unfold int_of_str16.
  destruct (skip_sign (skip_space s)) as [sign s1].
  destruct (skip_base_prefix s1) as [|c s2] eqn:E.
  - by destruct (scan_digits "" false 0 0) as [[[v [|n]] rest]|];
      [| destruct (skip_space rest) |].
  - repeat case_match; done.
Qed.

Lemma HexBytes_calm s : HexBytes s ≠ Exc ZeroDivisionError.
Proof. unfold HexBytes. by destruct (hex_text s). Qed.

Lemma bytes32_calm s : bytes32 s ≠ Exc ZeroDivisionError.
Proof. unfold bytes32. by destruct (_ <=? _)%nat. Qed.

Lemma HexBytes_Val s s' : HexBytes s = Val s' → s' = s.
Proof. unfold HexBytes. destruct (hex_text s); congruence. Qed.

Lemma signature_from_string_calm j : signature_from_string j ≠ Exc ZeroDivisionError.
Proof. destruct j; cbn; try done. by destruct (signature_ok s). Qed.

Lemma last_item_calm l : last_item l ≠ Exc ZeroDivisionError.
Proof. destruct l as [l|]; cbn; [|done]. by destruct (last l). Qed.

Lemma collect_failed_calm items acc : collect_failed items acc ≠ Exc ZeroDivisionError.
Proof.
  revert acc. induction items as [|j items IH]; intros acc; cbn [collect_failed]; [done|].
  pose proof (getitem_calm j "solanaTransactionIsSuccess").
  destruct (getitem j "solanaTransactionIsSuccess") as [flag|e]; cbn; [|congruence].
  destruct (is_False flag); [|apply IH].
  pose proof (getitem_calm j "solanaTransactionSignature").
  destruct (getitem j "solanaTransactionSignature") as [signature|e]; cbn;
    [apply IH|congruence].
Qed.

Create HintDb calm.
#[local] Hint Resolve calm_ret calm_emit calm_print calm_write getitem_calm
  py_iter_calm py_len_calm py_int16_calm HexBytes_calm bytes32_calm
  signature_from_string_calm
  last_item_calm collect_failed_calm : calm.

Ltac calm :=
  repeat first
    [ apply calm_bind_lift; [auto with calm; fail | intros ? ?]
    | apply calm_bind; [auto with calm; fail | intros ?]
    | progress auto with calm ].

Lemma print_reasons_calm reasons : no_division_error (print_reasons reasons).
Proof.
  induction reasons as [|[tx reason] l IH]; cbn [print_reasons]; [apply calm_ret|].
  by apply calm_bind; [apply calm_print|].
Qed.

Lemma lookup_failed_calm w h url first rest reasons :
  no_division_error (lookup_failed w h url first rest reasons).
Proof.
  revert first reasons. induction rest as [|next rest IH]; intros first reasons;
    cbn [lookup_failed]; calm;
    destruct (solana_get_transaction w url _) as [| |[meta|]]; calm;
    by apply calm_lift.
Qed.

Lemma debug_failed_calm w h url tx_info : no_division_error (debug_failed w h url tx_info).
Proof.
  unfold debug_failed.
  do 2 (apply calm_bind_lift; [auto with calm|]; intros ? _).
  apply calm_bind_lift; [auto with calm|]. intros [|first rest] _; calm.
  apply calm_bind; [apply lookup_failed_calm|]. intros [[last reasons]|]; calm.
  apply calm_bind; [apply print_reasons_calm|]. intros; calm.
Qed.

Lemma get_transaction_calm w url h : no_division_error (get_transaction w url h).
Proof.
  unfold get_transaction. calm. apply calm_lift.
  by destruct (eth_get_transaction w url _).
Qed.

Lemma get_transaction_returns w url h fs gas t fs' :
  get_transaction w url h fs = (Returns gas, t, fs') →
  eth_get_transaction w url h = Some gas.
Proof.
  unfold get_transaction, bytes32. destruct (_ <=? _)%nat; repeat step; [|done].
  destruct (eth_get_transaction w url h); cbn; congruence.
Qed.

(** A [ZeroDivisionError] of the debugger comes from a transaction whose
    [gas] is zero. *)
Lemma division_error_only_for_zero_gas w h url surl :
  eth_get_transaction w url h ≠ Some 0 →
  no_division_error (debug_transaction w h url surl).
Proof.
  intros Hgas. unfold debug_transaction.
  apply calm_bind; [apply calm_emit|]. intros _.
  destruct (negb _); [apply calm_emit|].
  do 2 (apply calm_bind_lift; [auto with calm|]; intros ? _).
  apply calm_bind_lift; [auto with calm|]. intros h' Hh.
  apply HexBytes_Val in Hh as ->.
  apply calm_bind_returns; [apply get_transaction_calm|].
  intros gas fs t fs' Hg%get_transaction_returns.
  do 4 (apply calm_bind_lift; [auto with calm|]; intros ? _).
  apply calm_bind; [apply calm_print|]. intros _.
  apply calm_bind_lift.
  { unfold percent_of. case_decide; [|by destruct (float_percent _ _)].
    subst gas. done. }
  intros percent _.
  do 2 (apply calm_bind; [apply calm_print|]; intros _).
  case_bool_decide; [apply calm_ret|apply debug_failed_calm].
Qed.

(** C10: a transaction whose gas is zero makes the debugger raise
    [ZeroDivisionError] right after the status line, without the gas line;
    with any other gas the debugger never ends in that error. *)
Theorem unguarded_division w h url surl fs tx_info status gas gas_used entries :
  operator_answers w url h tx_info gas →
  extended_receipt tx_info status gas_used entries →
  (gas = 0 →
   debug_transaction w h url surl fs
   = (Raises ZeroDivisionError,
      [NeonGetTransactionReceipt url h; GetTransaction url h;
       Print ("Status: " +:+ status_of (JStr status))],
      fs))
  ∧ (gas ≠ 0 → (debug_transaction w h url surl fs).1.1 ≠ Raises ZeroDivisionError).
Proof.
  intros Hanswers Hreceipt. split.
  - intros ->. rewrite (debug_transaction_status _ _ _ _ _ _ _ _ _ _ Hanswers Hreceipt).
    reflexivity.
  - intros Hgas. apply division_error_only_for_zero_gas.
    rewrite (answer_gas _ _ _ _ _ Hanswers). congruence.
Qed.


(** ** Binary floating point *)

Lemma nearest_even_spec n d :
  0 ≤ n → 0 < d →
  2 * Z.abs (nearest_even n d * d - n) ≤ d
  ∧ (2 * Z.abs (nearest_even n d * d - n) = d → Z.even (nearest_even n d) = true).
Proof.
  intros Hn Hd. unfold nearest_even.
  pose proof (Z.div_mod n d ltac:(lia)) as Hdiv.
  pose proof (Z.mod_pos_bound n d Hd) as Hmod.
  set (q := n / d) in *. set (r := n mod d) in *.
  destruct (2 * r <? d) eqn:Hlow; [apply Z.ltb_lt in Hlow; split; [lia|lia]|].
  apply Z.ltb_ge in Hlow.
  destruct (d <? 2 * r) eqn:Hhigh; [apply Z.ltb_lt in Hhigh; split; [lia|lia]|].
  apply Z.ltb_ge in Hhigh.
  destruct (Z.even q) eqn:Heven; [split; [lia|done]|].
  split; [lia|]. intros _. rewrite Z.add_1_r, Z.even_succ, <- Z.negb_even, Heven. done.
Qed.

Lemma pow2_pos e : (0 < 2 ^ e)%Q.
Proof. by apply Qpower_0_lt. Qed.

Lemma pow2_add a b : (2 ^ (a + b) == 2 ^ a * 2 ^ b)%Q.
Proof. by apply Qpower_plus. Qed.

Lemma pow2_inject a : 0 ≤ a → (inject_Z (2 ^ a) == 2 ^ a)%Q.
Proof. apply (Zpower_Qpower 2). Qed.

Lemma inject_Z_pos n : 0 < n → (0 < inject_Z n)%Q.
Proof. intros. change 0%Q with (inject_Z 0). by rewrite <- Zlt_Qlt. Qed.

(** What [scale] computes. *)
Lemma scale_spec n d e :
  0 < d →
  ∃ n' d',
    scale n d e = (n', d') ∧ 0 < d' ∧ (0 < n → 0 < n')
    ∧ (inject_Z n' / inject_Z d' == inject_Z n / inject_Z d / 2 ^ e)%Q.
Proof.
  intros Hd. unfold scale. pose proof (inject_Z_pos d Hd) as Hd'.
  pose proof (pow2_pos e) as He.
  destruct (0 <=? e) eqn:Hsign; [apply Z.leb_le in Hsign|apply Z.leb_gt in Hsign].
  - eexists _, _. split; [done|].
    assert (0 < 2 ^ e) by (by apply Z.pow_pos_nonneg). split; [lia|].
    split; [done|].
    rewrite inject_Z_mult, (pow2_inject e Hsign). field. split; lra.
  - eexists _, _. split; [done|]. split; [done|].
    assert (0 ≤ - e) as Hneg by lia.
    assert (0 < 2 ^ (- e)) by (by apply Z.pow_pos_nonneg). split; [nia|].
    rewrite inject_Z_mult, (pow2_inject _ Hneg), (Qpower_opp 2 e).
    field. split; lra.
Qed.

Lemma nearest_even_nearest n d :
  0 ≤ n → 0 < d → nearest (inject_Z n / inject_Z d) (nearest_even n d).
Proof.
  intros Hn Hd. destruct (nearest_even_spec n d Hn Hd) as [Hnear Htie].
  set (m := nearest_even n d) in *. pose proof (inject_Z_pos d Hd) as Hd'.
  assert (inject_Z m - inject_Z n / inject_Z d
          == inject_Z (m * d - n) / inject_Z d)%Q as Hdiff.
  { unfold Z.sub. rewrite inject_Z_plus, inject_Z_mult, inject_Z_opp. field. lra. }
  unfold nearest. rewrite Hdiff. set (z := m * d - n) in *.
  assert (- d ≤ 2 * z ≤ d) as [Hlow Hhigh] by lia.
  rewrite Zle_Qle, inject_Z_mult, inject_Z_opp in Hlow.
  rewrite Zle_Qle, inject_Z_mult in Hhigh.
  change (inject_Z 2) with 2%Q in *.
  split; [split|].
  - apply Qle_shift_div_l; [done|]. lra.
  - apply Qle_shift_div_r; [done|]. lra.
  - intros Hhalf. apply Htie.
    assert (inject_Z z == inject_Z z / inject_Z d * inject_Z d)%Q as Hz
      by (field; lra).
    assert (2 * inject_Z z == inject_Z d ∨ 2 * inject_Z z == - inject_Z d)%Q as Heq.
    { destruct Hhalf as [Hhalf|Hhalf]; rewrite Hhalf in Hz; [left|right]; lra. }
    change 2%Q with (inject_Z 2) in Heq.
    rewrite <- inject_Z_opp, <- inject_Z_mult, !inject_Z_injective in Heq. lia.
Qed.

Lemma log2_bounds n :
  0 < n →
  (2 ^ Z.log2 n <= inject_Z n)%Q ∧ (inject_Z n < 2 * 2 ^ Z.log2 n)%Q.
Proof.
  intros Hn. pose proof (Z.log2_spec n Hn) as [Hlow Hhigh].
  pose proof (Z.log2_nonneg n) as Hlog.
  rewrite Zle_Qle, pow2_inject in Hlow by done.
  rewrite Zlt_Qlt, pow2_inject, <- Z.add_1_r, pow2_add in Hhigh by lia.
  change (2 ^ 1)%Q with 2%Q in Hhigh. split; [done|lra].
Qed.

Lemma nearest_proper x y m : (x == y)%Q → nearest x m → nearest y m.
Proof. unfold nearest. by intros ->. Qed.

Lemma rounded_53_proper x x' y : (x == x')%Q → rounded_53 x y → rounded_53 x' y.
Proof.
  intros Hx (m & e & Hbinade & Hnear & Hy). exists m, e.
  split; [by rewrite <- Hx|]. split; [|done].
  eapply nearest_proper; [|done]. by rewrite Hx.
Qed.

(** The exponent that [binade] finds, away from the subnormal numbers. *)
Lemma binade_spec n d :
  0 < n → 0 < d →
  -1021 ≤ Z.log2 n - Z.log2 d →
  Z.log2 n - Z.log2 d - 53 ≤ binade n d ≤ Z.log2 n - Z.log2 d - 52
  ∧ (2 ^ 52 <= inject_Z n / inject_Z d / 2 ^ binade n d < 2 ^ 53)%Q.
Proof.
  intros Hn Hd Hk. unfold binade.
  set (k := Z.log2 n - Z.log2 d) in *.
  destruct (scale_spec n d k Hd) as (n' & d' & -> & Hd' & _ & Hq).
  destruct (log2_bounds n Hn) as [Hn1 Hn2]. destruct (log2_bounds d Hd) as [Hd1 Hd2].
  pose proof (inject_Z_pos n Hn) as Hn0. pose proof (inject_Z_pos d Hd) as Hd0.
  pose proof (inject_Z_pos d' Hd') as Hd'0.
  pose proof (pow2_pos (Z.log2 n)) as Ha. pose proof (pow2_pos (Z.log2 d)) as Hb.
  pose proof (pow2_pos k) as Hk0.
  assert (2 ^ k == 2 ^ Z.log2 n / 2 ^ Z.log2 d)%Q as Hpow.
  { unfold k, Z.sub. rewrite pow2_add, Qpower_opp. field. lra. }
  set (u := (inject_Z n / inject_Z d / 2 ^ k)%Q) in *.
  set (s := (inject_Z n / 2 ^ Z.log2 n)%Q).
  set (t := (inject_Z d / 2 ^ Z.log2 d)%Q).
  assert (1 <= s < 2)%Q as [Hs1 Hs2].
  { split; [apply Qle_shift_div_l|apply Qlt_shift_div_r]; lra. }
  assert (1 <= t < 2)%Q as [Ht1 Ht2].
  { split; [apply Qle_shift_div_l|apply Qlt_shift_div_r]; lra. }
  assert (u == s / t)%Q as Hu.
  { unfold u, s, t. rewrite Hpow. field. repeat split; lra. }
  assert (1 # 2 < u < 2)%Q as [Hu1 Hu2].
  { rewrite Hu. split; [apply Qlt_shift_div_l|apply Qlt_shift_div_r]; lra. }
  assert (∀ c, inject_Z n / inject_Z d / 2 ^ (k - c) == u * 2 ^ c)%Q as Hshift.
  { intros c. unfold u, Z.sub. rewrite pow2_add, Qpower_opp.
    pose proof (pow2_pos c). field. split; lra. }
  destruct (d' <=? n') eqn:Hcompare;
    [apply Z.leb_le in Hcompare|apply Z.leb_gt in Hcompare];
    (rewrite Z.max_l by lia); (split; [lia|]); rewrite Hshift.
  - assert (1 <= u)%Q.
    { rewrite <- Hq. apply Qle_shift_div_l; [done|].
      rewrite Zle_Qle in Hcompare. lra. }
    change (2 ^ 52)%Q with (4503599627370496 # 1).
    change (2 ^ 53)%Q with (9007199254740992 # 1). lra.
  - assert (u < 1)%Q.
    { rewrite <- Hq. apply Qlt_shift_div_r; [done|].
      rewrite Zlt_Qlt in Hcompare. lra. }
    change (2 ^ 52)%Q with (4503599627370496 # 1).
    change (2 ^ 53)%Q with (9007199254740992 # 1). lra.
Qed.

(** The mantissa of a number in the binade. *)
Lemma nearest_mantissa x m :
  (2 ^ 52 <= x < 2 ^ 53)%Q → nearest x m → 2 ^ 52 ≤ m ≤ 2 ^ 53.
Proof.
  change (2 ^ 52)%Q with (4503599627370496 # 1).
  change (2 ^ 53)%Q with (9007199254740992 # 1).
  intros [Hlow Hhigh] [[Hnear1 Hnear2] _].
  assert (2 ^ 52 - 1 < m ∧ m < 2 ^ 53 + 1) as [? ?]; [|lia].
  rewrite !Zlt_Qlt.
  change (inject_Z (2 ^ 52 - 1)) with (4503599627370495 # 1).
  change (inject_Z (2 ^ 53 + 1)) with (9007199254740993 # 1).
  split; lra.
Qed.

(** [round64] away from the subnormal numbers and from overflow. *)
Lemma round64_spec n d :
  0 < n → 0 < d →
  -1000 ≤ Z.log2 n - Z.log2 d ≤ 900 →
  ∃ m e,
    round64 n d = Finite m e
    ∧ 2 ^ 52 ≤ m < 2 ^ 53
    ∧ Z.log2 n - Z.log2 d - 53 ≤ e ≤ Z.log2 n - Z.log2 d - 51
    ∧ rounded_53 (inject_Z n / inject_Z d) (inject_Z m * 2 ^ e).
Proof.
  intros Hn Hd Hk. unfold round64.
  destruct (n =? 0) eqn:Hzero; [apply Z.eqb_eq in Hzero; lia|].
  destruct (binade_spec n d Hn Hd ltac:(lia)) as [He Hbinade].
  set (e := binade n d) in *.
  destruct (scale_spec n d e Hd) as (n' & d' & -> & Hd' & Hn' & Hq).
  pose proof (nearest_even_nearest n' d' ltac:(lia) Hd') as Hnear.
  apply (nearest_proper _ _ _ Hq) in Hnear.
  pose proof (nearest_mantissa _ _ Hbinade Hnear) as Hm.
  set (m := nearest_even n' d') in *.
  destruct (m =? 2 ^ 53) eqn:Hcarry;
    [apply Z.eqb_eq in Hcarry|apply Z.eqb_neq in Hcarry].
  - destruct (971 <? e + 1) eqn:Hover; [apply Z.ltb_lt in Hover; lia|].
    exists (2 ^ 52), (e + 1). split; [done|]. split; [lia|]. split; [lia|].
    exists m, e. split; [done|]. split; [done|].
    rewrite Hcarry, pow2_add.
    change (inject_Z (2 ^ 52)) with (4503599627370496 # 1).
    change (inject_Z (2 ^ 53)) with (9007199254740992 # 1).
    change (2 ^ 1)%Q with 2%Q. ring.
  - destruct (971 <? e) eqn:Hover; [apply Z.ltb_lt in Hover; lia|].
    exists m, e. split; [done|]. split; [lia|]. split; [lia|].
    by exists m, e.
Qed.

(** The exponent of a product with 100. *)
Lemma log2_scale_100 m e n d :
  2 ^ 52 ≤ m < 2 ^ 53 →
  scale (m * 100) 1 (- e) = (n, d) →
  58 + e ≤ Z.log2 n - Z.log2 d ≤ 59 + e.
Proof.
  intros Hm. unfold scale.
  assert (58 ≤ Z.log2 (m * 100) ≤ 59) as Hlog.
  { split.
    - apply Z.log2_le_pow2; lia.
    - assert (Z.log2 (m * 100) < 60); [|lia]. apply Z.log2_lt_pow2; lia. }
  destruct (0 <=? - e) eqn:Hsign;
    [apply Z.leb_le in Hsign|apply Z.leb_gt in Hsign]; intros [= <- <-].
  - rewrite Z.mul_1_l, Z.log2_pow2 by done. lia.
  - rewrite Z.opp_involutive, Z.log2_mul_pow2 by lia. change (Z.log2 1) with 0. lia.
Qed.

(** [times_100] on a number with a full mantissa. *)
Lemma times_100_spec m e :
  2 ^ 52 ≤ m < 2 ^ 53 →
  -1000 ≤ e ≤ 800 →
  ∃ m' e',
    times_100 (Finite m e) = Finite m' e'
    ∧ 2 ^ 52 ≤ m' < 2 ^ 53
    ∧ e + 5 ≤ e' ≤ e + 8
    ∧ rounded_53 (inject_Z m * 2 ^ e * 100) (inject_Z m' * 2 ^ e').
Proof.
  intros Hm He. unfold times_100.
  destruct (scale_spec (m * 100) 1 (- e) ltac:(done))
    as (n & d & Hscale & Hd & Hn & Hq).
  rewrite Hscale. pose proof (log2_scale_100 _ _ _ _ Hm Hscale) as Hlog.
  destruct (round64_spec n d ltac:(lia) Hd ltac:(lia))
    as (m' & e' & -> & Hm' & He' & Hround).
  exists m', e'. split; [done|]. split; [done|]. split; [lia|].
  eapply rounded_53_proper; [|done]. rewrite Hq, inject_Z_mult, Qpower_opp.
  pose proof (pow2_pos e). change (inject_Z 100) with 100%Q.
  change (inject_Z 1) with 1%Q. field. lra.
Qed.

(** The cents that [format_2f] prints. *)
Lemma format_2f_spec m e :
  0 ≤ m →
  ∃ cents,
    nearest (inject_Z m * 2 ^ e * 100) cents
    ∧ format_2f false (Finite m e)
      = pretty (cents / 100) +:+ "."
        +:+ (if cents mod 100 <? 10 then "0" else "") +:+ pretty (cents mod 100).
Proof.
  intros Hm. unfold format_2f.
  destruct (scale_spec (m * 100) 1 (- e) ltac:(done))
    as (n & d & Hscale & Hd & Hn & Hq).
  rewrite Hscale. exists (nearest_even n d). split; [|done].
  assert (0 ≤ n) as Hn0.
  { destruct (decide (m = 0)) as [->|]; [|lia].
    unfold scale in Hscale. destruct (0 <=? - e); injection Hscale as <- _; lia. }
  eapply nearest_proper; [|apply nearest_even_nearest; [done|done]].
  rewrite Hq, inject_Z_mult, Qpower_opp.
  pose proof (pow2_pos e). change (inject_Z 100) with 100%Q.
  change (inject_Z 1) with 1%Q. field. lra.
Qed.

(** The percentage of two gas values below [2 ^ 64]. *)
Lemma float_percent_spec gas_used gas :
  0 < gas_used < 2 ^ 64 →
  0 < gas < 2 ^ 64 →
  ∃ quotient product cents,
    rounded_53 (inject_Z gas_used / inject_Z gas) quotient
    ∧ rounded_53 (quotient * 100) product
    ∧ nearest (product * 100) cents
    ∧ float_percent gas_used gas
      = Some (pretty (cents / 100) +:+ "."
              +:+ (if cents mod 100 <? 10 then "0" else "") +:+ pretty (cents mod 100)).
Proof.
  intros Hused Hgas. unfold float_percent.
  assert ((gas_used <? 0) = false) as -> by lia.
  assert ((gas <? 0) = false) as -> by lia.
  rewrite !Z.abs_eq by lia.
  assert (0 ≤ Z.log2 gas_used < 64 ∧ 0 ≤ Z.log2 gas < 64) as [Hlog1 Hlog2].
  { split; (split; [apply Z.log2_nonneg|apply Z.log2_lt_pow2; lia]). }
  destruct (round64_spec gas_used gas ltac:(lia) ltac:(lia) ltac:(lia))
    as (m & e & -> & Hm & He & Hquotient).
  cbv iota beta. cbn [xorb].
  destruct (times_100_spec m e Hm ltac:(lia)) as (m' & e' & -> & Hm' & He' & Hproduct).
  destruct (format_2f_spec m' e' ltac:(lia)) as (cents & Hcents & ->).
  by exists (inject_Z m * 2 ^ e)%Q, (inject_Z m' * 2 ^ e')%Q, cents.
Qed.

(** On the samples, the division and the multiplication agree with the
    model of IEEE 754 in the standard library. *)
Lemma round64_agrees_with_SFdiv :
  forallb (λ '(a, b),
    let quotient := SFdiv 53 1024 (spec_float_of a) (spec_float_of b) in
    same_float quotient (round64 a b)
    && same_float (SFmul 53 1024 quotient (spec_float_of 100))
         (times_100 (round64 a b))) gas_samples
  = true.
Proof. vm_compute. reflexivity. Qed.

(** C5, as the script has it: for gas values from 1 to [2 ^ 64 - 1], the
    percentage shown in the second line of the report is computed from
    [gas_used], read from [gasUsed] by [int(_, 16)], and the [gas] of the
    transaction in three rounding steps: the quotient is rounded to a
    mantissa of 53 bits, so is its product with 100, and the decimal
    expansion of that number is rounded to two places, each time to the
    nearest and to the even one of two. *)
Theorem displayed_percentage w h url surl fs tx_info status gas gas_used entries :
  operator_answers w url h tx_info gas →
  extended_receipt tx_info status gas_used entries →
  0 < gas_used < 2 ^ 64 →
  0 < gas < 2 ^ 64 →
  ∃ quotient product cents,
    rounded_53 (inject_Z gas_used / inject_Z gas) quotient
    ∧ rounded_53 (quotient * 100) product
    ∧ nearest (product * 100) cents
    ∧ printed (debug_transaction w h url surl fs).1.2 !! 1%nat
      = Some ("Estimated gas: " +:+ pretty gas +:+ " | Gas used: " +:+ pretty gas_used
              +:+ " "
              +:+ (pretty (cents / 100) +:+ "."
                   +:+ (if cents mod 100 <? 10 then "0" else "")
                   +:+ pretty (cents mod 100))
              +:+ "%").
Proof.
  intros Hanswers Hreceipt Hused Hgas.
  destruct (float_percent_spec gas_used gas Hused Hgas)
    as (quotient & product & cents & Hquotient & Hproduct & Hcents & Hpercent).
  exists quotient, product, cents. do 3 (split; [done|]).
  rewrite (debug_transaction_report _ _ _ _ _ _ _ _ _ _ Hanswers Hreceipt _
             ltac:(lia) Hpercent).
  by rewrite after_events.
Qed.

(** ** The two verification phases *)

Lemma last_name_cons item items before :
  last_name (item :: items) before = last_name items (Some item.1).
Proof. unfold last_name. rewrite last_cons. by destruct (last items). Qed.

Lemma last_name_snoc items item before :
  last_name (items ++ [item]) before = Some item.1.
Proof. unfold last_name. by rewrite last_snoc. Qed.

#[local] Instance has_transaction_dec w h item : Decision (has_transaction w h item).
Proof. unfold has_transaction. apply _. Qed.

#[local] Instance has_receipt_dec w h item : Decision (has_receipt w h item).
Proof. unfold has_receipt. apply _. Qed.

(** Either every item has the property, or there is a first one without. *)
Lemma Forall_or_first_miss {A} (P : A → Prop) `{!∀ x, Decision (P x)} (l : list A) :
  Forall P l
  ∨ ∃ found miss rest, l = found ++ miss :: rest ∧ Forall P found ∧ ¬ P miss.
Proof.
  induction l as [|x l IH]; [by left|].
  destruct (decide (P x)) as [Hx|Hx].
  - destruct IH as [IH|(found & miss & rest & -> & Hfound & Hmiss)].
    + left. by constructor.
    + right. exists (x :: found), miss, rest. split; [done|]. split; [by constructor|done].
  - right. by exists [], x, l.
Qed.

Section Phases.
Variables (w : world) (h : string).
Hypothesis Hhex : hex_text h = true.
Hypothesis Hbytes : (hex_bytes h <=? 32)%nat = true.

(** Line 119 at an endpoint that returns the transaction. *)
Lemma run_check_tx_exist {B} url (f : bool → M B) fs :
  is_some (eth_get_transaction w url h) = true →
  (check_tx_exist w h url ≫= f) fs = after [GetTransaction url h] (f true fs).
Proof using Hhex Hbytes.
  intros Hknown. destruct (eth_get_transaction w url h) as [gas|] eqn:Hgas; [|done].
  unfold check_tx_exist, HexBytes. rewrite Hhex. repeat step.
  rewrite (run_get_transaction _ _ _ _ _ _ Hbytes Hgas). by repeat step.
Qed.

(** Line 119 at an endpoint that has no such transaction. *)
Lemma run_check_tx_exist_missing {B} url (f : bool → M B) fs :
  eth_get_transaction w url h = None →
  (check_tx_exist w h url ≫= f) fs
  = (Raises TransactionNotFound, [GetTransaction url h], fs).
Proof using Hhex Hbytes.
  intros Hgas. unfold check_tx_exist, HexBytes. rewrite Hhex. repeat step.
  by rewrite (run_get_transaction_missing _ _ _ _ _ Hbytes Hgas).
Qed.

(** Line 135 at an endpoint that returns the receipt. *)
Lemma run_check_receipt_exist {B} url (f : bool → M B) fs :
  eth_get_transaction_receipt w url h = true →
  (check_receipt_exist w h url ≫= f) fs
  = after [GetTransactionReceipt url h] (f true fs).
Proof using Hhex Hbytes.
  intros Hreceipt. unfold check_receipt_exist, HexBytes. rewrite Hhex. repeat step.
  rewrite (run_get_transaction_receipt _ _ _ _ _ Hbytes Hreceipt). by repeat step.
Qed.

(** Line 135 at an endpoint that has no such receipt. *)
Lemma run_check_receipt_exist_missing {B} url (f : bool → M B) fs :
  eth_get_transaction_receipt w url h = false →
  (check_receipt_exist w h url ≫= f) fs
  = (Raises TransactionNotFound, [GetTransactionReceipt url h], fs).
Proof using Hhex Hbytes.
  intros Hreceipt. unfold check_receipt_exist, HexBytes. rewrite Hhex. repeat step.
  by rewrite (run_get_transaction_receipt_missing _ _ _ _ _ Hbytes Hreceipt).
Qed.

(** Lines 118-125 when every endpoint returns the transaction. *)
Lemma verify_transactions_run items before fs :
  Forall (has_transaction w h) items →
  verify_transactions w h items before fs
  = (Returns (last_name items before), transaction_events h items, fs).
Proof using Hhex Hbytes.
  intros Hall. revert before.
  induction Hall as [|[eth_network url] items Hitem _ IH]; intros before; [done|].
  cbn [verify_transactions]. rewrite (run_check_tx_exist _ _ _ Hitem).
  step. rewrite IH, last_name_cons. reflexivity.
Qed.

(** Lines 118-125 up to the first endpoint without the transaction. *)
Lemma verify_transactions_miss found name url rest before fs :
  Forall (has_transaction w h) found →
  eth_get_transaction w url h = None →
  verify_transactions w h (found ++ (name, url) :: rest) before fs
  = (Raises TransactionNotFound,
     transaction_events h found ++ [GetTransaction url h], fs).
Proof using Hhex Hbytes.
  intros Hfound Hmiss. revert before.
  induction Hfound as [|[eth_network url'] items Hitem _ IH]; intros before.
  - cbn [app verify_transactions]. by rewrite (run_check_tx_exist_missing _ _ _ Hmiss).
  - cbn [app verify_transactions]. rewrite (run_check_tx_exist _ _ _ Hitem).
    step. rewrite IH. reflexivity.
Qed.

(** Lines 134-142 when every endpoint returns the receipt. *)
Lemma verify_receipts_run items before fs :
  Forall (has_receipt w h) items →
  verify_receipts w h items before fs
  = (Returns (last_name items before), receipt_events h items, fs).
Proof using Hhex Hbytes.
  intros Hall. revert before. unfold verify_receipts.
  induction Hall as [|[eth_network url] items Hitem _ IH]; intros before; [done|].
  cbn [receipt_loop]. rewrite (run_check_receipt_exist _ _ _ Hitem).
  change (truthy (Some "Exist")) with true. cbv iota beta.
  step. rewrite IH, last_name_cons. reflexivity.
Qed.

(** Lines 134-142 up to the first endpoint without the receipt. *)
Lemma verify_receipts_miss found name url rest before fs :
  Forall (has_receipt w h) found →
  eth_get_transaction_receipt w url h = false →
  verify_receipts w h (found ++ (name, url) :: rest) before fs
  = (Raises TransactionNotFound,
     receipt_events h found ++ [GetTransactionReceipt url h], fs).
Proof using Hhex Hbytes.
  intros Hfound Hmiss. revert before. unfold verify_receipts.
  induction Hfound as [|[eth_network url'] items Hitem _ IH]; intros before.
  - cbn [app receipt_loop]. by rewrite (run_check_receipt_exist_missing _ _ _ Hmiss).
  - cbn [app receipt_loop]. rewrite (run_check_receipt_exist _ _ _ Hitem).
    change (truthy (Some "Exist")) with true. cbv iota beta.
    step. rewrite IH. reflexivity.
Qed.
End Phases.

Lemma printed_receipt_events h items :
  printed (receipt_events h items) = (λ item, item.1 +:+ ": Exist") <$> items.
Proof. induction items as [|item items IH]; [done|]. cbn. f_equal. exact IH. Qed.

Lemma printed_transaction_events h items :
  printed (transaction_events h items) = (λ item, item.1 +:+ ": Exist") <$> items.
Proof. induction items as [|item items IH]; [done|]. cbn. f_equal. exact IH. Qed.

(** Lines 134-142 for any check that returns: the line says "Exist" for
    [True] and for [False]. *)
Lemma receipt_loop_lines check items before fs :
  (∀ url fs, ∃ result t, check url fs = (Returns result, t, fs) ∧ printed t = []) →
  printed (receipt_loop check items before fs).1.2
  = (λ item, item.1 +:+ ": Exist") <$> items.
Proof.
  intros Hcheck. revert before.
  induction items as [|[eth_network url] items IH]; intros before; [done|].
  cbn [receipt_loop]. destruct (Hcheck url fs) as (result & t & Hrun & Ht).
  rewrite (run_returns _ _ _ _ _ _ Hrun).
  destruct result; cbv iota beta;
    [change (truthy (Some "Exist")) with true
    |change (truthy (Some "Not exist")) with true];
    cbv iota; step; rewrite after_after, after_events, !printed_app, Ht, IH;
    reflexivity.
Qed.


(** ** The script *)

Lemma run_ensure_logs_dir {B} (f : unit → M B) fs :
  (ensure_logs_dir ≫= f) fs
  = after (if fs is Some _ then [] else [MakeDir "logs"]) (f tt (Some (default ∅ fs))).
Proof. by destruct fs. Qed.

Lemma dict_has_get {V} k (d : list (string * V)) :
  dict_has k d = true → ∃ v, dict_get k d = Some v.
Proof. unfold dict_has. destruct (dict_get k d); [eauto|done]. Qed.

(** C1, as the script has it: an unknown network is reported first,
    whatever the hash.  Once the network is known, a hash that is not 66
    hexadecimal digits with an optional [0x] or [0X] in front is printed
    with "Invalid transaction hash" and the run exits with status 1 before
    any call; every other hash passes the check and the run goes on to the
    operators, and the hashes of the pattern are among those. *)
Theorem hash_validation w cfg args fs :
  (dict_has (network args) (solana cfg) = false →
   main w cfg args fs = (Exits 1, [Print "Network not found"], fs))
  ∧ (dict_has (network args) (solana cfg) = true →
     (¬ accepted_hash (tx_hash args) →
      main w cfg args fs
      = (Exits 1, [Print (tx_hash args); Print "Invalid transaction hash"], fs))
     ∧ (accepted_hash (tx_hash args) →
        valid_hash (tx_hash args) = true
        ∧ head (printed (main w cfg args fs).1.2)
          = Some "Verify transaction exist in operators")
     ∧ (matches_pattern (tx_hash args) = true → accepted_hash (tx_hash args))).
Proof.
  split; [|intros Hnet; split; [|split]].
  - intros Hnet. unfold main. by rewrite Hnet.
  - intros Hbad. unfold main. rewrite Hnet. cbn [negb].
    destruct (valid_hash (tx_hash args)) eqn:Hvalid.
    + by apply valid_hash_spec in Hvalid.
    + reflexivity.
  - intros Hvalid%valid_hash_spec. split; [done|].
    unfold main. rewrite Hnet, Hvalid. cbn [negb].
    rewrite run_ensure_logs_dir, run_print, after_after, after_events, printed_app.
    by destruct fs.
  - by intros Hvalid%pattern_is_valid%valid_hash_spec.
Qed.

Lemma config_get_Some d k v : dict_get k d = Some v → config_get d (Some k) = Val v.
Proof. unfold config_get. cbn. by intros ->. Qed.

Lemma truthy_name s : s ≠ "" → truthy (Some s) = true.
Proof. intros. cbn. by rewrite bool_decide_eq_false_2. Qed.

Lemma debugged_app t t' : debugged (t ++ t') = debugged t ++ debugged t'.
Proof. apply omap_app. Qed.

Lemma debugged_preamble fs : debugged (preamble fs) = [].
Proof. by destruct fs. Qed.

Lemma debugged_transaction_events h items : debugged (transaction_events h items) = [].
Proof. induction items as [|item items IH]; [done|]. exact IH. Qed.

Lemma debugged_receipt_events h items : debugged (receipt_events h items) = [].
Proof. induction items as [|item items IH]; [done|]. exact IH. Qed.

Section Script.
Variables (w : world) (cfg : config) (args : arguments) (fs : files).
Hypothesis Hnetwork : dict_has (network args) (solana cfg) = true.
Hypothesis Hvalid : valid_hash (tx_hash args) = true.

(** Lines 103-117 *)
Lemma main_preamble :
  main w cfg args fs
  = after (preamble fs)
      ((transaction_operator ← verify_transactions w (tx_hash args) (rpc cfg) None;
        if negb (truthy transaction_operator) then
          print "Transaction not found in operators";;
          exit 1
        else
          print (newline +:+ "Verify receipt exist in operators");;
          print "---------------------------------";;
          receipt_operator ← verify_receipts w (tx_hash args) (rpc cfg) None;
          if negb (truthy receipt_operator) then
            print "Receipt not found in operators";;
            exit 1
          else
            print (newline +:+ "Provide more information about transaction");;
            print "------------------------------------------";;
            operator_url ← lift (config_get (rpc cfg) receipt_operator);
            solana_url ← lift (config_get (solana cfg) (Some (network args)));
            debug_transaction w (tx_hash args) operator_url solana_url;;
            show_logs args) (Some (default ∅ fs))).
Proof using Hnetwork Hvalid.
  unfold main. rewrite Hnetwork, Hvalid. cbn [negb].
  rewrite run_ensure_logs_dir. do 2 step. rewrite !after_after.
  unfold preamble. by rewrite <- ?(assoc (++)).
Qed.

(** A hash of more than 32 bytes ends the run at the first endpoint, before
    anything is requested. *)
Lemma main_long_hash item items :
  (hex_bytes (tx_hash args) <=? 32)%nat = false →
  rpc cfg = item :: items →
  main w cfg args fs = (Raises ValueError, preamble fs, Some (default ∅ fs)).
Proof using Hnetwork Hvalid.
  intros Hlong Hrpc. rewrite main_preamble, Hrpc. destruct item as [name url].
  cbn [verify_transactions]. unfold check_tx_exist, HexBytes.
  rewrite (valid_hash_hex_text _ Hvalid). repeat step.
  rewrite (run_get_transaction_long _ _ _ _ _ Hlong). cbn [after].
  by rewrite app_nil_r.
Qed.

(** Without endpoints the run says that the transaction was not found. *)
Lemma main_no_operator :
  rpc cfg = [] →
  main w cfg args fs
  = (Exits 1, preamble fs ++ [Print "Transaction not found in operators"],
     Some (default ∅ fs)).
Proof using Hnetwork Hvalid. intros Hrpc. rewrite main_preamble, Hrpc. reflexivity. Qed.

Hypothesis Hbytes : (hex_bytes (tx_hash args) <=? 32)%nat = true.

(** Lines 118-125 end at the first endpoint without the transaction. *)
Lemma main_transaction_miss found name url rest :
  rpc cfg = found ++ (name, url) :: rest →
  Forall (has_transaction w (tx_hash args)) found →
  eth_get_transaction w url (tx_hash args) = None →
  main w cfg args fs
  = (Raises TransactionNotFound,
     preamble fs ++ transaction_events (tx_hash args) found
     ++ [GetTransaction url (tx_hash args)],
     Some (default ∅ fs)).
Proof using Hnetwork Hvalid Hbytes.
  intros Hrpc Hfound Hmiss. rewrite main_preamble, Hrpc.
  rewrite (run_raises _ _ _ _ _ _
             (verify_transactions_miss _ _ (valid_hash_hex_text _ Hvalid) Hbytes
                _ _ _ _ _ _ Hfound Hmiss)).
  reflexivity.
Qed.

Hypothesis Htransactions : Forall (has_transaction w (tx_hash args)) (rpc cfg).

(** Lines 118-129 when the last endpoint has no name. *)
Lemma main_transaction_unnamed :
  truthy (last_name (rpc cfg) None) = false →
  main w cfg args fs
  = (Exits 1,
     preamble fs ++ transaction_events (tx_hash args) (rpc cfg)
     ++ [Print "Transaction not found in operators"],
     Some (default ∅ fs)).
Proof using Hnetwork Hvalid Hbytes Htransactions.
  intros Hnone. rewrite main_preamble.
  rewrite (run_returns _ _ _ _ _ _
             (verify_transactions_run _ _ (valid_hash_hex_text _ Hvalid) Hbytes
                _ _ _ Htransactions)).
  rewrite Hnone. cbn [negb]. step. unfold exit. cbn [after].
  by rewrite !app_nil_r.
Qed.

Hypothesis Hnamed : truthy (last_name (rpc cfg) None) = true.

(** Lines 134-142 end at the first endpoint without the receipt. *)
Lemma main_receipt_miss found name url rest :
  rpc cfg = found ++ (name, url) :: rest →
  Forall (has_receipt w (tx_hash args)) found →
  eth_get_transaction_receipt w url (tx_hash args) = false →
  main w cfg args fs
  = (Raises TransactionNotFound,
     preamble fs ++ transaction_events (tx_hash args) (rpc cfg) ++ receipt_banner
     ++ receipt_events (tx_hash args) found
     ++ [GetTransactionReceipt url (tx_hash args)],
     Some (default ∅ fs)).
Proof using Hnetwork Hvalid Hbytes Htransactions Hnamed.
  intros Hrpc Hfound Hmiss. rewrite main_preamble.
  rewrite (run_returns _ _ _ _ _ _
             (verify_transactions_run _ _ (valid_hash_hex_text _ Hvalid) Hbytes
                _ _ _ Htransactions)).
  rewrite Hnamed. cbn [negb]. do 2 step.
  assert (verify_receipts w (tx_hash args) (rpc cfg) None (Some (default ∅ fs))
          = (Raises TransactionNotFound,
             receipt_events (tx_hash args) found
             ++ [GetTransactionReceipt url (tx_hash args)],
             Some (default ∅ fs))) as Hrun.
  { rewrite Hrpc.
    by apply (verify_receipts_miss _ _ (valid_hash_hex_text _ Hvalid) Hbytes). }
  rewrite (run_raises _ _ _ _ _ _ Hrun). cbn [after].
  reflexivity.
Qed.

Hypothesis Hreceipts : Forall (has_receipt w (tx_hash args)) (rpc cfg).

(** Lines 78-149 when every endpoint returns the transaction and the
    receipt. *)
Lemma main_receipts_found :
  main w cfg args fs
  = after (preamble fs ++ transaction_events (tx_hash args) (rpc cfg)
           ++ receipt_banner ++ receipt_events (tx_hash args) (rpc cfg)
           ++ debugger_banner)
      ((operator_url ← lift (config_get (rpc cfg) (last_name (rpc cfg) None));
        solana_url ← lift (config_get (solana cfg) (Some (network args)));
        debug_transaction w (tx_hash args) operator_url solana_url;;
        show_logs args) (Some (default ∅ fs))).
Proof using All.
  rewrite main_preamble.
  rewrite (run_returns _ _ _ _ _ _
             (verify_transactions_run _ _ (valid_hash_hex_text _ Hvalid) Hbytes
                _ _ _ Htransactions)).
  rewrite Hnamed. cbn [negb]. do 2 step.
  rewrite (run_returns _ _ _ _ _ _
             (verify_receipts_run _ _ (valid_hash_hex_text _ Hvalid) Hbytes
                _ _ _ Hreceipts)).
  rewrite Hnamed. cbn [negb]. do 2 step. rewrite !after_after.
  by rewrite <- !(assoc (++)).
Qed.

(** Lines 78-150: the debugger is called for the last endpoint. *)
Lemma main_reaches_debugger operators name url :
  NoDup (rpc cfg).*1 →
  rpc cfg = operators ++ [(name, url)] →
  ∃ solana_url,
    dict_get (network args) (solana cfg) = Some solana_url
    ∧ main w cfg args fs
      = after (preamble fs ++ transaction_events (tx_hash args) (rpc cfg)
               ++ receipt_banner ++ receipt_events (tx_hash args) (rpc cfg)
               ++ debugger_banner)
          ((debug_transaction w (tx_hash args) url solana_url;; show_logs args)
             (Some (default ∅ fs))).
Proof using All.
  intros Hkeys Hrpc.
  destruct (dict_has_get _ _ Hnetwork) as [solana_url Hsolana].
  exists solana_url. split; [done|]. rewrite main_receipts_found.
  assert (last_name (rpc cfg) None = Some name) as ->.
  { rewrite Hrpc. apply last_name_snoc. }
  rewrite (config_get_Some _ name url).
  2: { apply dict_get_NoDup; [done|]. rewrite Hrpc.
       apply elem_of_app. right. apply list_elem_of_singleton. done. }
  step. rewrite (config_get_Some _ _ _ Hsolana). by step.
Qed.
End Script.

(** C2, as the script has it: the debugger is reached only when every
    endpoint returns the transaction and the receipt and the last endpoint
    has a name; it is then called with the URL of the last endpoint in the
    order of the configuration, and the first request for an extended
    receipt goes there. *)
Theorem debugger_uses_last_endpoint w cfg args fs operators name url :
  (debugged (main w cfg args fs).1.2 ≠ [] →
   dict_has (network args) (solana cfg) = true
   ∧ valid_hash (tx_hash args) = true
   ∧ (hex_bytes (tx_hash args) <=? 32)%nat = true
   ∧ Forall (has_transaction w (tx_hash args)) (rpc cfg)
   ∧ Forall (has_receipt w (tx_hash args)) (rpc cfg)
   ∧ truthy (last_name (rpc cfg) None) = true)
  ∧ (dict_has (network args) (solana cfg) = true →
     valid_hash (tx_hash args) = true →
     (hex_bytes (tx_hash args) <=? 32)%nat = true →
     Forall (has_transaction w (tx_hash args)) (rpc cfg) →
     Forall (has_receipt w (tx_hash args)) (rpc cfg) →
     NoDup (rpc cfg).*1 →
     rpc cfg = operators ++ [(name, url)] →
     name ≠ "" →
     (∃ solana_url,
        dict_get (network args) (solana cfg) = Some solana_url
        ∧ main w cfg args fs
          = after (preamble fs ++ transaction_events (tx_hash args) (rpc cfg)
                   ++ receipt_banner ++ receipt_events (tx_hash args) (rpc cfg)
                   ++ debugger_banner)
              ((debug_transaction w (tx_hash args) url solana_url;; show_logs args)
                 (Some (default ∅ fs))))
     ∧ head (debugged (main w cfg args fs).1.2) = Some url).
Proof.
  split.
  - intros Hreached.
    destruct (dict_has (network args) (solana cfg)) eqn:Hnetwork.
    2: { destruct Hreached. unfold main. by rewrite Hnetwork. }
    destruct (valid_hash (tx_hash args)) eqn:Hvalid.
    2: { destruct Hreached. unfold main. by rewrite Hnetwork, Hvalid. }
    destruct (hex_bytes (tx_hash args) <=? 32)%nat eqn:Hbytes.
    2: { destruct Hreached. destruct (rpc cfg) as [|item items] eqn:Hrpc.
         - rewrite (main_no_operator _ _ _ _ Hnetwork Hvalid Hrpc). cbn [fst snd].
           by rewrite debugged_app, debugged_preamble.
         - rewrite (main_long_hash _ _ _ _ Hnetwork Hvalid _ _ Hbytes Hrpc).
           apply debugged_preamble. }
    destruct (Forall_or_first_miss (has_transaction w (tx_hash args)) (rpc cfg))
      as [Htransactions|(found & [miss url'] & rest & Hrpc & Hfound & Hmiss)].
    2: { destruct Hreached. unfold has_transaction in Hmiss. cbn [snd] in Hmiss.
         rewrite (main_transaction_miss _ _ _ _ Hnetwork Hvalid Hbytes _ _ _ _
                    Hrpc Hfound).
         - cbn [fst snd].
           by rewrite !debugged_app, debugged_preamble, debugged_transaction_events.
         - by destruct (eth_get_transaction w url' (tx_hash args)). }
    destruct (truthy (last_name (rpc cfg) None)) eqn:Hnamed.
    2: { destruct Hreached.
         rewrite (main_transaction_unnamed _ _ _ _ Hnetwork Hvalid Hbytes
                    Htransactions Hnamed).
         cbn [fst snd].
         by rewrite !debugged_app, debugged_preamble, debugged_transaction_events. }
    destruct (Forall_or_first_miss (has_receipt w (tx_hash args)) (rpc cfg))
      as [Hreceipts|(found & [miss url'] & rest & Hrpc & Hfound & Hmiss)]; [done|].
    destruct Hreached. apply not_true_is_false in Hmiss.
    rewrite (main_receipt_miss _ _ _ _ Hnetwork Hvalid Hbytes Htransactions Hnamed
               _ _ _ _ Hrpc Hfound Hmiss).
    cbn [fst snd].
    by rewrite !debugged_app, debugged_preamble, debugged_transaction_events,
         debugged_receipt_events.
  - intros Hnetwork Hvalid Hbytes Htransactions Hreceipts Hkeys Hrpc Hname.
    assert (truthy (last_name (rpc cfg) None) = true) as Hnamed.
    { rewrite Hrpc, last_name_snoc. by apply truthy_name. }
    destruct (main_reaches_debugger _ _ _ fs Hnetwork Hvalid Hbytes Htransactions
                Hnamed Hreceipts _ _ _ Hkeys Hrpc)
      as (solana_url & Hsolana & Hmain).
    split; [by exists solana_url|].
    rewrite Hmain, after_events, !debugged_app, debugged_preamble,
      debugged_transaction_events, debugged_receipt_events.
    change (debugged receipt_banner) with (@nil string).
    change (debugged debugger_banner) with (@nil string). cbn [app].
    unfold debug_transaction. rewrite run_assoc, run_emit, after_events.
    reflexivity.
Qed.

(** ** The properties at sample runs *)

Ltac by_instance H := vm_compute in H; vm_compute; exact H.

Lemma missing_result_is_reported_witness :
  debug_transaction (sample_world 42000 [("error", JStr "unknown")])
    zero_hash "http://first" "http://solana" None
  = (Returns tt,
     [NeonGetTransactionReceipt "http://first" zero_hash;
      PrintValue "Got a problem with transaction info: "
        (JDict [("error", JStr "unknown")])],
     None).
Proof.
  apply (missing_result_is_reported (sample_world 42000 [("error", JStr "unknown")])).
  reflexivity.
Defined.

Lemma sample_answers gas subs status :
  operator_answers (sample_world gas [("result", sample_receipt status subs)])
    "http://first" zero_hash (sample_receipt status subs) gas.
Proof. by split. Qed.

Lemma sample_extended_receipt status entries :
  extended_receipt
    (sample_receipt status ((λ entry, sub_transaction entry.1 entry.2) <$> entries))
    status 21000 entries.
Proof.
  split; [done|by exists "0x5208"|].
  eexists. split; [done|]. induction entries as [|[ok signature] entries IH]; by constructor.
Qed.

Lemma sample_percent : float_percent 21000 42000 = Some "50.00".
Proof. vm_compute. reflexivity. Qed.

Lemma success_short_circuits_witness :
  let '(r, t, fs') :=
    debug_transaction
      (sample_world 42000 [("result", sample_receipt "0x1" [sub_transaction true signature_a])])
      zero_hash "http://first" "http://solana" None in
  looked_up t = [] ∧ written t = [] ∧ fs' = None
  ∧ r = Returns tt
  ∧ t = [NeonGetTransactionReceipt "http://first" zero_hash;
         GetTransaction "http://first" zero_hash;
         Print "Status: Success"; Print (gas_line 42000 21000 "50.00");
         Print ("Solana transactions: " +:+ pretty 1)].
Proof.
  pose proof (success_short_circuits
    (sample_world 42000 [("result", sample_receipt "0x1" [sub_transaction true signature_a])])
    zero_hash "http://first" "http://solana" None
    (sample_receipt "0x1" [sub_transaction true signature_a]) (JStr "0x1")
    eq_refl eq_refl eq_refl) as H.
  destruct (debug_transaction _ _ _ _ _) as [[r t] fs'].
  destruct H as (Hl & Hw & Hfs & H). do 3 (split; [done|]).
  apply (H "0x1" 42000 21000 [(true, signature_a)] "50.00");
    [apply sample_answers | apply (sample_extended_receipt "0x1" [(true, signature_a)])
    | done | apply sample_percent].
Defined.

Lemma unguarded_division_witness :
  debug_transaction
    (sample_world 0 [("result", sample_receipt "0x0" [sub_transaction false signature_a])])
    zero_hash "http://first" "http://solana" None
  = (Raises ZeroDivisionError,
     [NeonGetTransactionReceipt "http://first" zero_hash;
      GetTransaction "http://first" zero_hash; Print "Status: Failed"],
     None).
Proof.
  refine (proj1 (unguarded_division
            (sample_world 0 [("result", sample_receipt "0x0" [sub_transaction false signature_a])])
            zero_hash "http://first" "http://solana" None
            (sample_receipt "0x0" [sub_transaction false signature_a])
            "0x0" 0 21000 [(false, signature_a)] _ _) eq_refl).
  - apply sample_answers.
  - apply (sample_extended_receipt "0x0" [(false, signature_a)]).
Defined.

Lemma failed_without_flagged_witness :
  debug_transaction
    (sample_world 42000 [("result", sample_receipt "0x0" [sub_transaction true signature_a])])
    zero_hash "http://first" "http://solana" None
  = (Returns tt,
     [NeonGetTransactionReceipt "http://first" zero_hash;
      GetTransaction "http://first" zero_hash;
      Print "Status: Failed"; Print (gas_line 42000 21000 "50.00");
      Print ("Solana transactions: " +:+ pretty 1);
      Print ("Transaction " +:+ zero_hash
             +:+ " is failed but no failed solana transaction found")],
     None).
Proof.
  apply (failed_without_flagged
           (sample_world 42000 [("result", sample_receipt "0x0" [sub_transaction true signature_a])])
           zero_hash "http://first" "http://solana" None
           (sample_receipt "0x0" [sub_transaction true signature_a])
           42000 21000 "50.00" [(true, signature_a)]);
    [apply sample_answers
    |apply (sample_extended_receipt "0x0" [(true, signature_a)])
    |done|apply sample_percent|reflexivity].
Defined.

Lemma failed_transaction_logs_witness :
  let '(r, t, fs') :=
    debug_transaction (sample_world 42000 two_failed)
      zero_hash "http://first" "http://solana" (Some ∅) in
  r = Returns tt
  ∧ looked_up t = [("http://solana", signature_a); ("http://solana", signature_b)]
  ∧ written t
    = [("logs/" +:+ signature_a +:+ ".log",
        "Program log: start" +:+ newline +:+ "Program failed: " +:+ signature_a);
       ("logs/" +:+ signature_b +:+ ".log",
        "Program log: start" +:+ newline +:+ "Program failed: " +:+ signature_b)]
  ∧ length (looked_up t) = 2%nat
  ∧ length (written t) = 2%nat
  ∧ (NoDup [signature_a; signature_b] → NoDup (written t).*1)
  ∧ ∀ s, s ∈ [signature_a; signature_b] →
      ∃ content reason,
        fs' ≫= (.!! "logs/" +:+ s +:+ ".log") = Some content
        ∧ content = String.concat (String "010" "") (sample_logs s)
        ∧ last (sample_logs s) = Some reason
        ∧ "    " +:+ s +:+ ": " +:+ reason ∈ printed t
        ∧ (single_line reason = true → last_line content = reason).
Proof.
  apply (failed_transaction_logs (sample_world 42000 two_failed)
           zero_hash "http://first" "http://solana" ∅
           (sample_receipt "0x0"
              [sub_transaction false signature_a; sub_transaction false signature_b;
               sub_transaction true signature_c])
           42000 21000 "50.00"
           [(false, signature_a); (false, signature_b); (true, signature_c)]
           sample_logs);
    [apply sample_answers
    |apply (sample_extended_receipt "0x0"
              [(false, signature_a); (false, signature_b); (true, signature_c)])
    |done|apply sample_percent|].
  repeat first [apply Forall_nil_2 | apply Forall_cons_2];
    (split; [vm_compute; reflexivity|reflexivity|discriminate]).
Defined.

Lemma displayed_percentage_witness :
  ∃ quotient product cents,
    rounded_53 (inject_Z 21000 / inject_Z 42000) quotient
    ∧ rounded_53 (quotient * 100) product
    ∧ nearest (product * 100) cents
    ∧ printed (debug_transaction (sample_world 42000 two_failed)
                 zero_hash "http://first" "http://solana" (Some ∅)).1.2 !! 1%nat
      = Some ("Estimated gas: " +:+ pretty 42000 +:+ " | Gas used: " +:+ pretty 21000
              +:+ " "
              +:+ (pretty (cents / 100) +:+ "."
                   +:+ (if cents mod 100 <? 10 then "0" else "")
                   +:+ pretty (cents mod 100))
              +:+ "%").
Proof.
  apply (displayed_percentage (sample_world 42000 two_failed)
           zero_hash "http://first" "http://solana" (Some ∅)
           two_failed_receipt "0x0" 42000 21000 two_failed_entries).
  - apply (sample_answers 42000 _ "0x0").
  - apply (sample_extended_receipt "0x0" two_failed_entries).
  - lia.
  - lia.
Defined.


Lemma hash_validation_witness :
  main (sample_world 42000 two_failed) sample_config (sample_arguments "0x12") None
  = (Exits 1, [Print "0x12"; Print "Invalid transaction hash"], None).
Proof.
  refine (proj1 (proj2 (hash_validation (sample_world 42000 two_failed) sample_config
                          (sample_arguments "0x12") None) eq_refl) _).
  intros [Hlength _]. discriminate Hlength.
Defined.

Lemma sample_operators (w : world) h (P : world → string → string * string → Prop) :
  P w h ("first", "http://first") → P w h ("second", "http://second") →
  Forall (P w h) (rpc sample_config).
Proof. intros. by repeat constructor. Qed.

Lemma debugger_uses_last_endpoint_witness :
  head (debugged (main (sample_world 42000 two_failed) sample_config
                    (sample_arguments zero_hash) None).1.2)
  = Some "http://second".
Proof.
  refine (proj2 (proj2 (debugger_uses_last_endpoint (sample_world 42000 two_failed)
                          sample_config (sample_arguments zero_hash) None
                          [("first", "http://first")] "second" "http://second")
                   eq_refl eq_refl eq_refl _ _ _ eq_refl _)).
  - by apply sample_operators.
  - by apply sample_operators.
  - apply (bool_decide_unpack _). by vm_compute.
  - discriminate.
Defined.

(** ** Where the specification and the script part *)

(** Against C1: [0X] and 64 hexadecimal digits do not match the pattern,
    yet the run prints no validation error, asks the operators and ends
    with status 0. *)
Lemma upper_prefix_passes :
  matches_pattern upper_hash = false
  ∧ let '(r, t, _) := main (sample_world 42000 two_failed) sample_config
                        (sample_arguments upper_hash) None in
    exit_status r = 0
    ∧ head (printed t) = Some "Verify transaction exist in operators"
    ∧ bool_decide ("Invalid transaction hash" ∈ printed t) = false
    ∧ head (filter (λ e, is_network_call e = true) t)
      = Some (GetTransaction "http://first" upper_hash).
Proof. split; [reflexivity|]. vm_compute. repeat split; reflexivity. Qed.

(** Against C2: both endpoints report the receipt, and the debugger asks the
    second one. *)
Lemma first_endpoint_not_used :
  reporting (λ url, eth_get_transaction_receipt (sample_world 42000 two_failed) url zero_hash)
    (rpc sample_config)
  = [("first", "http://first"); ("second", "http://second")]
  ∧ debugged (main (sample_world 42000 two_failed) sample_config
                (sample_arguments zero_hash) None).1.2
    = ["http://second"].
Proof. split; vm_compute; reflexivity. Qed.

(** Against C3: the lookup returns two log messages, the second with a line
    break inside.  The file ends with the line after that break, while the
    reason printed is the whole message. *)
Lemma reason_is_not_the_last_line :
  let content :=
    "Program log: start" +:+ newline +:+ "Program log: panicked at 'overflow',"
    +:+ newline +:+ "src/lib.rs:10:5" in
  debug_transaction (world_with_logs 42000 one_failed panic_logs)
    zero_hash "http://first" "http://solana" (Some ∅)
  = (Returns tt,
     [NeonGetTransactionReceipt "http://first" zero_hash;
      GetTransaction "http://first" zero_hash;
      Print "Status: Failed";
      Print "Estimated gas: 42000 | Gas used: 21000 50.00%";
      Print "Solana transactions: 1";
      Print "Solana failed transactions: 1";
      SolanaGetTransaction "http://solana" signature_a;
      WriteFile ("logs/" +:+ signature_a +:+ ".log") content;
      Print ("Failed Solana transaction: " +:+ signature_a);
      Print "Reasons:";
      Print ("    " +:+ signature_a +:+ ": Program log: panicked at 'overflow',"
             +:+ newline +:+ "src/lib.rs:10:5");
      Print "Full log saved in 'logs' folder"],
     Some {["logs/" +:+ signature_a +:+ ".log" := content]})
  ∧ last_line content = "src/lib.rs:10:5".
Proof. split; vm_compute; reflexivity. Qed.

(** Against C5: with 1015 of 100000 gas used the exact percentage is 1.015,
    which is 101.5 hundredths, and the nearest number of hundredths is 102
    and not 101; the report shows 1.01. *)
Lemma percentage_is_not_exact :
  printed (debug_transaction (sample_world 100000 little_gas_used)
             zero_hash "http://first" "http://solana" None).1.2 !! 1%nat
  = Some "Estimated gas: 100000 | Gas used: 1015 1.01%"
  ∧ (inject_Z 1015 / inject_Z 100000 * 100 * 100 == 203 # 2)%Q
  ∧ nearest (inject_Z 1015 / inject_Z 100000 * 100 * 100) 102
  ∧ ¬ nearest (inject_Z 1015 / inject_Z 100000 * 100 * 100) 101.
Proof.
  split; [vm_compute; reflexivity|]. split; [reflexivity|]. split.
  - split; [split; by vm_compute|done].
  - intros [_ Htie]. discriminate Htie. by right.
Qed.


(** * More properties of the script *)

(** ** The verification phases *)

Lemma calls_transaction_events h items :
  filter (λ e, is_network_call e = true) (transaction_events h items)
  = (λ item, GetTransaction item.2 h) <$> items.
Proof.
  induction items as [|item items IH]; [done|].
  change (transaction_events h (item :: items))
    with ([GetTransaction item.2 h; Print (item.1 +:+ ": Exist")]
          ++ transaction_events h items).
  rewrite filter_app, IH. reflexivity.
Qed.

(** In the transaction phase the endpoints are asked in the order of the
    configuration, without stopping at a hit, and the line of an endpoint
    that returns the transaction says "Exist"; at the first endpoint that
    has no such transaction the phase ends in [TransactionNotFound], so no
    line ever says "Not exist". *)
Theorem transaction_lines_until_first_miss w h items before fs :
  hex_text h = true →
  (hex_bytes h <=? 32)%nat = true →
  let '(r, t, fs') := verify_transactions w h items before fs in
  ∃ asked,
    printed t = (λ item, item.1 +:+ ": Exist") <$> asked
    ∧ Forall (has_transaction w h) asked
    ∧ fs' = fs
    ∧ ((asked = items
        ∧ r = Returns (last_name items before)
        ∧ filter (λ e, is_network_call e = true) t
          = (λ item, GetTransaction item.2 h) <$> items)
       ∨ ∃ miss rest,
           items = asked ++ miss :: rest
           ∧ eth_get_transaction w miss.2 h = None
           ∧ r = Raises TransactionNotFound
           ∧ filter (λ e, is_network_call e = true) t
             = (λ item, GetTransaction item.2 h) <$> asked ++ [miss]).
Proof.
  intros Hhex Hbytes.
  destruct (Forall_or_first_miss (has_transaction w h) items)
    as [Hall|(found & [name url] & rest & -> & Hfound & Hmiss)].
  - rewrite (verify_transactions_run _ _ Hhex Hbytes _ _ _ Hall).
    exists items. rewrite printed_transaction_events, calls_transaction_events.
    do 3 (split; [done|]). by left.
  - assert (eth_get_transaction w url h = None) as Hnone.
    { unfold has_transaction in Hmiss. cbn [snd] in Hmiss.
      by destruct (eth_get_transaction w url h). }
    rewrite (verify_transactions_miss _ _ Hhex Hbytes _ _ _ _ _ _ Hfound Hnone).
    exists found. rewrite printed_app, printed_transaction_events, app_nil_r.
    do 3 (split; [done|]). right. exists (name, url), rest.
    rewrite filter_app, calls_transaction_events, fmap_app. by repeat split.
Qed.

(** When an endpoint has no such transaction, the run ends in
    [TransactionNotFound] at the request to the first such endpoint: the
    endpoints before it have their "Exist" line, "Transaction not found in
    operators" is not printed, and neither the receipts nor the debugger are
    reached. *)
Theorem missing_transaction_raises w cfg args fs found name url rest :
  dict_has (network args) (solana cfg) = true →
  valid_hash (tx_hash args) = true →
  (hex_bytes (tx_hash args) <=? 32)%nat = true →
  rpc cfg = found ++ (name, url) :: rest →
  Forall (has_transaction w (tx_hash args)) found →
  eth_get_transaction w url (tx_hash args) = None →
  main w cfg args fs
  = (Raises TransactionNotFound,
     preamble fs ++ transaction_events (tx_hash args) found
     ++ [GetTransaction url (tx_hash args)],
     Some (default ∅ fs)).
Proof. intros. by eapply main_transaction_miss. Qed.

(** An operator whose name in the configuration is the empty string does
    not count: when it is the last one and every endpoint returns the
    transaction, its line says "Exist" and the run still ends with
    "Transaction not found in operators" and status 1. *)
Theorem unnamed_operator_is_not_found w cfg args fs operators url :
  dict_has (network args) (solana cfg) = true →
  valid_hash (tx_hash args) = true →
  (hex_bytes (tx_hash args) <=? 32)%nat = true →
  Forall (has_transaction w (tx_hash args)) (rpc cfg) →
  rpc cfg = operators ++ [("", url)] →
  main w cfg args fs
  = (Exits 1,
     preamble fs ++ transaction_events (tx_hash args) (rpc cfg)
     ++ [Print "Transaction not found in operators"],
     Some (default ∅ fs))
  ∧ last (printed (transaction_events (tx_hash args) (rpc cfg))) = Some ": Exist".
Proof.
  intros Hnetwork Hvalid Hbytes Hall Hrpc. split.
  - apply main_transaction_unnamed; [done..|]. by rewrite Hrpc, last_name_snoc.
  - rewrite printed_transaction_events, Hrpc, fmap_app.
    cbn [fmap list_fmap fst]. by rewrite last_snoc.
Qed.

(** When every endpoint returns the transaction and an endpoint has no
    receipt, the run ends in [TransactionNotFound] at the request to the
    first such endpoint: "Receipt not found in operators" is not printed and
    the debugger is not reached. *)
Theorem missing_receipt_raises w cfg args fs found name url rest :
  dict_has (network args) (solana cfg) = true →
  valid_hash (tx_hash args) = true →
  (hex_bytes (tx_hash args) <=? 32)%nat = true →
  Forall (has_transaction w (tx_hash args)) (rpc cfg) →
  truthy (last_name (rpc cfg) None) = true →
  rpc cfg = found ++ (name, url) :: rest →
  Forall (has_receipt w (tx_hash args)) found →
  eth_get_transaction_receipt w url (tx_hash args) = false →
  main w cfg args fs
  = (Raises TransactionNotFound,
     preamble fs ++ transaction_events (tx_hash args) (rpc cfg) ++ receipt_banner
     ++ receipt_events (tx_hash args) found
     ++ [GetTransactionReceipt url (tx_hash args)],
     Some (default ∅ fs)).
Proof. intros. by eapply main_receipt_miss. Qed.

(** A hash of 66 hexadecimal digits without prefix passes the check of the
    command line, but it stands for 33 bytes: with at least one endpoint
    configured the run ends in a [ValueError] at the first check, before
    anything is requested. *)
Theorem long_hash_raises w cfg args fs item items :
  dict_has (network args) (solana cfg) = true →
  String.length (tx_hash args) = 66%nat →
  all_hex (tx_hash args) = true →
  rpc cfg = item :: items →
  valid_hash (tx_hash args) = true
  ∧ main w cfg args fs = (Raises ValueError, preamble fs, Some (default ∅ fs)).
Proof.
  intros Hnetwork Hlength Hhex Hrpc.
  assert (valid_hash (tx_hash args) = true) as Hvalid.
  { apply valid_hash_spec. split; [done|by left]. }
  split; [done|]. eapply main_long_hash; [done..| |done].
  unfold hex_bytes.
  assert (remove_0x_prefix (tx_hash args) = None) as ->.
  { destruct (tx_hash args) as [|a [|b r]]; [done..|].
    cbn [all_hex] in Hhex. apply andb_true_iff in Hhex as [_ [Hb _]%andb_true_iff].
    cbn [remove_0x_prefix].
    destruct (bool_decide (b = "x"%char)) eqn:Hx.
    { apply bool_decide_eq_true in Hx. by subst b. }
    destruct (bool_decide (b = "X"%char)) eqn:HX.
    { apply bool_decide_eq_true in HX. by subst b. }
    by rewrite andb_false_r. }
  cbn [default]. by rewrite Hlength.
Qed.

(** ** The debugger when a lookup goes wrong *)

(** Lines 58-69 over signatures that all have logs, up to the next one. *)
Lemma lookup_failed_done w h url logs_of done x rest :
  Forall (has_logs w url logs_of) done →
  ∀ first others reasons dir,
    first :: others = done ++ x :: rest →
    lookup_failed w h url (JStr first) (JStr <$> others) reasons (Some dir)
    = after (lookup_events url logs_of done)
        (lookup_failed w h url (JStr x) (JStr <$> rest)
           (record_reasons logs_of reasons done)
           (Some (store_logs logs_of dir done))).
Proof.
  induction 1 as [|d ds [Hsig Hdetails Hsome] _ IH];
    intros first others reasons dir Heq.
  - injection Heq as -> ->. by rewrite after_nil.
  - injection Heq as -> ->.
    destruct (ds ++ x :: rest) as [|next others] eqn:Hothers.
    { by destruct ds. }
    cbn [lookup_failed fmap list_fmap signature_from_string].
    rewrite Hsig. step. step. rewrite Hdetails. step. cbn [last_item].
    rewrite (last_default _ Hsome). step. cbn [default]. step.
    rewrite (IH next others _ _ eq_refl).
    by destruct (lookup_failed w h url (JStr x) _ _ _) as [[r t] fs'].
Qed.

Ltac finish :=
  unfold mret, M_ret; cbn [after];
  rewrite ?(right_id [] (++)), <- ?(assoc (++)); reflexivity.

Lemma run_bind_after {A B} (m m' : M A) (f : A → M B) fs fs' t :
  m fs = after t (m' fs') → (m ≫= f) fs = after t ((m' ≫= f) fs').
Proof.
  unfold mbind, M_bind. intros ->.
  destruct (m' fs') as [[[a|e|c] t'] fs'']; cbn [after]; by rewrite ?after_after.
Qed.

Section Interrupted.
Variables (w : world) (h url surl : string) (dir : gmap string string).
Variables (tx_info : json) (gas gas_used : Z) (percent : string).
Variable entries : list (bool * string).
Variable logs_of : string → list string.
Variables (done : list string) (x : string) (rest : list string).
Hypothesis Hanswers : operator_answers w url h tx_info gas.
Hypothesis Hreceipt : extended_receipt tx_info "0x0" gas_used entries.
Hypothesis Hgas : gas ≠ 0.
Hypothesis Hpercent : float_percent gas_used gas = Some percent.
Hypothesis Hsigs : failed_signatures entries = done ++ x :: rest.
Hypothesis Hdone : Forall (has_logs w surl logs_of) done.

(** The debugger up to the lookup of [x]. *)
Lemma debug_transaction_upto :
  debug_transaction w h url surl (Some dir)
  = after (failed_report url h gas gas_used percent (length entries)
             (length (done ++ x :: rest))
           ++ lookup_events surl logs_of done)
      ((r ← lookup_failed w h surl (JStr x) (JStr <$> rest)
              (record_reasons logs_of [] done);
        match r with
        | None => mret tt
        | Some (failed_sol_tx, reasons) =>
            print ("Failed Solana transaction: " +:+ failed_sol_tx);;
            print "Reasons:";;
            print_reasons reasons;;
            print "Full log saved in 'logs' folder"
        end) (Some (store_logs logs_of dir done))).
Proof using All.
  rewrite (debug_transaction_report _ _ _ _ _ _ _ _ _ _ Hanswers Hreceipt _ Hgas Hpercent).
  rewrite decide_True by done.
  rewrite (debug_failed_collect _ _ _ _ _ _ _ _ Hreceipt), Hsigs.
  destruct (done ++ x :: rest) as [|first others] eqn:Hlist.
  { by destruct done. }
  rewrite (run_bind_after _ _ _ _ _ _
             (lookup_failed_done w h surl logs_of done x rest Hdone
                first others _ _ (eq_sym Hlist))).
  by rewrite !after_after.
Qed.

(** A signature that is not 64 bytes in base 58 stops the run with a
    [ValueError] before it is looked up. *)
Lemma debug_transaction_bad_signature :
  signature_ok x = false →
  debug_transaction w h url surl (Some dir)
  = (Raises ValueError,
     failed_report url h gas gas_used percent (length entries)
       (length (done ++ x :: rest))
     ++ lookup_events surl logs_of done,
     Some (store_logs logs_of dir done)).
Proof using All.
  intros Hbad. rewrite debug_transaction_upto.
  destruct rest; cbn [lookup_failed fmap list_fmap signature_from_string];
    rewrite Hbad; repeat step; finish.
Qed.

(** A lookup without details ends the debugger with the diagnostic. *)
Lemma debug_transaction_no_details :
  signature_ok x = true →
  solana_get_transaction w surl x = NoDetails
  ∨ solana_get_transaction w surl x = NoValue →
  debug_transaction w h url surl (Some dir)
  = (Returns tt,
     failed_report url h gas gas_used percent (length entries)
       (length (done ++ x :: rest))
     ++ lookup_events surl logs_of done
     ++ [SolanaGetTransaction surl x; Print (not_found_message h)],
     Some (store_logs logs_of dir done)).
Proof using All.
  intros Hok Hnone. rewrite debug_transaction_upto.
  destruct rest, Hnone as [Hnone|Hnone];
    cbn [lookup_failed fmap list_fmap signature_from_string];
    rewrite Hok; repeat step; rewrite Hnone; repeat step; finish.
Qed.

(** A lookup whose answer has no last log line raises after the lookup. *)
Lemma debug_transaction_no_reason e :
  signature_ok x = true →
  no_reason (solana_get_transaction w surl x) e →
  debug_transaction w h url surl (Some dir)
  = (Raises e,
     failed_report url h gas gas_used percent (length entries)
       (length (done ++ x :: rest))
     ++ lookup_events surl logs_of done ++ [SolanaGetTransaction surl x],
     Some (store_logs logs_of dir done)).
Proof using All.
  intros Hok Hnone. rewrite debug_transaction_upto.
  destruct rest; cbn [lookup_failed fmap list_fmap signature_from_string];
    rewrite Hok; repeat step; destruct Hnone;
    repeat step; cbn [last_item last]; repeat step; finish.
Qed.
End Interrupted.

(** When the lookup of a failed sub-transaction returns no details, the
    debugger prints the diagnostic and returns at once: the signatures
    before it were looked up and their files written, the ones after it are
    not looked up, and no reason is printed. *)
Theorem lookup_without_details_stops w h url surl dir tx_info gas gas_used percent
    entries logs_of done missing rest :
  operator_answers w url h tx_info gas →
  extended_receipt tx_info "0x0" gas_used entries →
  gas ≠ 0 →
  float_percent gas_used gas = Some percent →
  failed_signatures entries = done ++ missing :: rest →
  Forall (has_logs w surl logs_of) done →
  signature_ok missing = true →
  solana_get_transaction w surl missing = NoDetails
  ∨ solana_get_transaction w surl missing = NoValue →
  debug_transaction w h url surl (Some dir)
  = (Returns tt,
     failed_report url h gas gas_used percent (length entries)
       (length (done ++ missing :: rest))
     ++ lookup_events surl logs_of done
     ++ [SolanaGetTransaction surl missing;
         Print ("Transaction " +:+ h
                +:+ " is failed but no failed solana transaction found")],
     Some (store_logs logs_of dir done)).
Proof. intros. by eapply debug_transaction_no_details. Qed.

(** When the lookup of a failed sub-transaction returns no log line (no
    [meta], no [log_messages], or an empty list), the debugger ends in an
    exception right after that lookup: nothing is written for that
    signature, and the summary is not printed. *)
Theorem lookup_without_logs_raises w h url surl dir tx_info gas gas_used percent
    entries logs_of done silent rest e :
  operator_answers w url h tx_info gas →
  extended_receipt tx_info "0x0" gas_used entries →
  gas ≠ 0 →
  float_percent gas_used gas = Some percent →
  failed_signatures entries = done ++ silent :: rest →
  Forall (has_logs w surl logs_of) done →
  signature_ok silent = true →
  no_reason (solana_get_transaction w surl silent) e →
  debug_transaction w h url surl (Some dir)
  = (Raises e,
     failed_report url h gas gas_used percent (length entries)
       (length (done ++ silent :: rest))
     ++ lookup_events surl logs_of done ++ [SolanaGetTransaction surl silent],
     Some (store_logs logs_of dir done)).
Proof. intros. by eapply debug_transaction_no_reason. Qed.

(** A failed sub-transaction whose signature is not base 58 of 64 bytes
    ends the debugger in a [ValueError] before that signature is looked up;
    the signatures before it were handled. *)
Theorem malformed_signature_raises w h url surl dir tx_info gas gas_used percent
    entries logs_of done malformed rest :
  operator_answers w url h tx_info gas →
  extended_receipt tx_info "0x0" gas_used entries →
  gas ≠ 0 →
  float_percent gas_used gas = Some percent →
  failed_signatures entries = done ++ malformed :: rest →
  Forall (has_logs w surl logs_of) done →
  signature_ok malformed = false →
  debug_transaction w h url surl (Some dir)
  = (Raises ValueError,
     failed_report url h gas gas_used percent (length entries)
       (length (done ++ malformed :: rest))
     ++ lookup_events surl logs_of done,
     Some (store_logs logs_of dir done)).
Proof. intros. by eapply debug_transaction_bad_signature. Qed.

(** ** The debugger when the receipt cannot be read *)

(** A response whose ["result"] is not an object, such as the [null] an
    operator answers for a transaction it does not know, ends the debugger
    in a [TypeError] right after the request; an object without ["status"]
    ends it in a [KeyError].  Nothing is printed. *)
Theorem unreadable_result_raises w h url surl fs tx_info :
  dict_get "result" (neon_getTransactionReceipt w url h) = Some tx_info →
  ((∀ d, tx_info ≠ JDict d) →
   debug_transaction w h url surl fs
   = (Raises TypeError, [NeonGetTransactionReceipt url h], fs))
  ∧ (∀ d, tx_info = JDict d → dict_get "status" d = None →
     debug_transaction w h url surl fs
     = (Raises KeyError, [NeonGetTransactionReceipt url h], fs)).
Proof.
  intros Hresult.
  assert (∀ e, getitem tx_info "status" = Exc e →
               debug_transaction w h url surl fs
               = (Raises e, [NeonGetTransactionReceipt url h], fs)) as Hrun.
  { intros e He. unfold debug_transaction. step.
    unfold dict_has. rewrite Hresult. cbn [negb getitem]. rewrite Hresult.
    step. rewrite He. step. reflexivity. }
  split.
  - intros Hnot. apply Hrun. destruct tx_info; try done. by destruct (Hnot d).
  - intros d -> Hnone. apply Hrun. cbn. by rewrite Hnone.
Qed.

(** When the operator that answered the extended receipt has no such
    transaction, the request of line 36 raises: the debugger ends in
    [TransactionNotFound] after the two requests, before it prints
    anything. *)
Theorem unknown_transaction_raises w h url surl fs tx_info status_field :
  dict_get "result" (neon_getTransactionReceipt w url h) = Some tx_info →
  getitem tx_info "status" = Val status_field →
  hex_text h = true →
  (hex_bytes h <=? 32)%nat = true →
  eth_get_transaction w url h = None →
  debug_transaction w h url surl fs
  = (Raises TransactionNotFound,
     [NeonGetTransactionReceipt url h; GetTransaction url h], fs).
Proof.
  intros Hresult Hstatus Hh Hbytes Hnone. unfold debug_transaction. step.
  unfold dict_has. rewrite Hresult. cbn [negb getitem]. rewrite Hresult.
  step. rewrite Hstatus. step. unfold HexBytes. rewrite Hh. step.
  by rewrite (run_get_transaction_missing _ _ _ _ _ Hbytes Hnone).
Qed.

(** Apart from the diagnostic for a response without ["result"], the
    debugger prints no line before it has read the whole receipt: if it
    prints a line at all, the first one is the status line, and the status,
    the gas of the transaction, the gas used and the number of
    sub-transactions were all read. *)
Theorem report_needs_whole_receipt w h url surl fs :
  let '(_, t, _) := debug_transaction w h url surl fs in
  printed t ≠ [] →
  ∃ tx_info status_field gas gas_used solana_transactions solana_txs,
    dict_get "result" (neon_getTransactionReceipt w url h) = Some tx_info
    ∧ getitem tx_info "status" = Val status_field
    ∧ eth_get_transaction w url h = Some gas
    ∧ (getitem tx_info "gasUsed" ≫= py_int16) = Val gas_used
    ∧ getitem tx_info "solanaTransactions" = Val solana_transactions
    ∧ py_len solana_transactions = Val solana_txs
    ∧ head (printed t) = Some ("Status: " +:+ status_of status_field).
Proof.
  unfold debug_transaction. step. unfold dict_has.
  destruct (dict_get "result" (neon_getTransactionReceipt w url h))
    as [tx_info|] eqn:Hresult; cbn [negb getitem].
  2: { cbn. done. }
  rewrite Hresult. step.
  destruct (getitem tx_info "status") as [status_field|e] eqn:Hstatus;
    step; [|by cbn].
  unfold HexBytes. destruct (hex_text h); step; [|by cbn].
  unfold get_transaction, bytes32.
  destruct (hex_bytes h <=? 32)%nat; repeat step; [|by cbn].
  destruct (eth_get_transaction w url h) as [gas|] eqn:Hgas; repeat step; [|by cbn].
  destruct (getitem tx_info "gasUsed") as [field|e] eqn:Hfield; step; [|by cbn].
  destruct (py_int16 field) as [gas_used|e] eqn:Hused; step; [|by cbn].
  destruct (getitem tx_info "solanaTransactions") as [txs|e] eqn:Htxs; step; [|by cbn].
  destruct (py_len txs) as [n|e] eqn:Hlen; step; [|by cbn]. step.
  rewrite !after_after.
  match goal with
  | |- context [after ?t ?x] =>
      destruct x as [[r t'] fs'] eqn:Hrest; cbn [after]
  end.
  intros _. exists tx_info, status_field, gas, gas_used, txs, n.
  rewrite Hfield. cbn [mbind py_bind]. by repeat split.
Qed.

(** ** Invariants *)

Section Respects.
Context (url : string) (Q : files → outcome → list event → files → Prop).
Context `{!Invariant url Q}.

Lemma respects_ret {A} (a : A) : respects Q (mret a).
Proof. intros fs. apply inv_ret. Qed.

Lemma respects_lift {A} (r : py A) : respects Q (lift r).
Proof. intros fs. destruct r; [apply inv_ret|apply inv_raise]. Qed.

Lemma respects_emit e :
  (∀ path content, e ≠ WriteFile path content) → respects Q (emit e).
Proof. intros He fs. by apply inv_emit. Qed.

Lemma respects_print line : respects Q (print line).
Proof. by apply respects_emit. Qed.

Lemma respects_bind {A B} (m : M A) (f : A → M B) :
  respects Q m → (∀ a, respects Q (f a)) → respects Q (m ≫= f).
Proof.
  intros Hm Hf fs. specialize (Hm fs). unfold mbind, M_bind.
  destruct (m fs) as [[[a|e|c] t] fs1]; cbn [fst snd outcome_of] in *; [|done..].
  specialize (Hf a fs1). destruct (f a fs1) as [[r t'] fs2]. cbn [after fst snd] in *.
  by eapply inv_seq.
Qed.

Lemma respects_print_reasons reasons : respects Q (print_reasons reasons).
Proof.
  induction reasons as [|[tx reason] reasons IH]; [apply respects_ret|].
  cbn [print_reasons]. apply respects_bind; [apply respects_print|done].
Qed.

Lemma respects_get_transaction w operator_url h :
  respects Q (get_transaction w operator_url h).
Proof.
  unfold get_transaction. apply respects_bind; [apply respects_lift|intros ?].
  apply respects_bind; [by apply respects_emit|intros ?]. apply respects_lift.
Qed.

Lemma respects_get_transaction_receipt w operator_url h :
  respects Q (get_transaction_receipt w operator_url h).
Proof.
  unfold get_transaction_receipt. apply respects_bind; [apply respects_lift|intros ?].
  apply respects_bind; [by apply respects_emit|intros ?]. apply respects_lift.
Qed.

Lemma respects_check_tx_exist w h operator_url : respects Q (check_tx_exist w h operator_url).
Proof.
  unfold check_tx_exist. apply respects_bind; [apply respects_lift|intros ?].
  apply respects_bind; [apply respects_get_transaction|intros ?]. apply respects_ret.
Qed.

Lemma respects_check_receipt_exist w h operator_url :
  respects Q (check_receipt_exist w h operator_url).
Proof.
  unfold check_receipt_exist. apply respects_bind; [apply respects_lift|intros ?].
  apply respects_bind; [apply respects_get_transaction_receipt|intros ?].
  apply respects_ret.
Qed.

Lemma respects_verify_transactions w h items before :
  respects Q (verify_transactions w h items before).
Proof.
  revert before. induction items as [|[name operator_url] items IH]; intros before;
    [apply respects_ret|].
  cbn [verify_transactions].
  apply respects_bind; [apply respects_check_tx_exist|intros []];
    (apply respects_bind; [apply respects_print|intros _; apply IH]).
Qed.

Lemma respects_verify_receipts w h items before :
  respects Q (verify_receipts w h items before).
Proof.
  unfold verify_receipts.
  revert before. induction items as [|[name operator_url] items IH]; intros before;
    [apply respects_ret|].
  cbn [receipt_loop].
  apply respects_bind; [apply respects_check_receipt_exist|intros []];
    (apply respects_bind; [apply respects_print|intros _; apply IH]).
Qed.

(** One round of lines 58-69, followed by [k]. *)
Lemma respects_lookup_step w h first reasons
    (k : string → list (string * string) → M (option (string * list (string * string)))) :
  (∀ signature reasons', respects Q (k signature reasons')) →
  respects Q
    (signature ← lift (signature_from_string first);
     emit (SolanaGetTransaction url signature);;
     match solana_get_transaction w url signature with
     | NoDetails | NoValue => print (not_found_message h);; mret None
     | Details meta =>
         logs ← lift (match meta with
                      | Some log_messages => Val log_messages
                      | None => Exc AttributeError
                      end);
         reason ← lift (last_item logs);
         write_file (log_file signature) (join newline (default [] logs));;
         k signature (dict_set signature reason reasons)
     end).
Proof.
  intros Hk fs.
  destruct (signature_from_string first) as [signature|e];
    [rewrite run_lift_val|rewrite run_lift_exc; apply inv_raise].
  rewrite run_emit.
  assert (Q fs Normal [SolanaGetTransaction url signature] fs) as Hlookup
    by (by apply inv_emit).
  assert (∀ e, Q fs (Raised e) ([SolanaGetTransaction url signature] ++ []) fs)
    as Hraise by (intros e; eapply inv_seq; [exact Hlookup|apply inv_raise]).
  destruct (solana_get_transaction w url signature) as [| |[[logs|]|]].
  - rewrite run_print. unfold mret, M_ret. cbn [after fst snd outcome_of].
    eapply inv_seq; [exact Hlookup|]. eapply inv_seq; [by apply inv_emit|apply inv_ret].
  - rewrite run_print. unfold mret, M_ret. cbn [after fst snd outcome_of].
    eapply inv_seq; [exact Hlookup|]. eapply inv_seq; [by apply inv_emit|apply inv_ret].
  - rewrite run_lift_val. cbn [last_item].
    destruct (last logs) as [reason|];
      [rewrite run_lift_val|rewrite run_lift_exc; apply Hraise].
    destruct fs as [dir|]; [|apply Hraise].
    rewrite run_write, after_after.
    specialize (Hk signature (dict_set signature reason reasons)
                  (Some (<[log_file signature
                           := join newline (default [] (Some logs))]> dir))).
    destruct (k _ _ _) as [[r t] fs2]. cbn [after fst snd] in *.
    eapply inv_seq; [apply inv_lookup_write|exact Hk].
  - rewrite run_lift_val. cbn [last_item]. rewrite run_lift_exc. apply Hraise.
  - rewrite run_lift_exc. apply Hraise.
Qed.

(** Lines 58-69 *)
Lemma respects_lookup_failed w h first rest reasons :
  respects Q (lookup_failed w h url first rest reasons).
Proof.
  revert first reasons. induction rest as [|next rest IH]; intros first reasons.
  - apply (respects_lookup_step w h first reasons (λ signature reasons',
             mret (Some (signature, reasons')))).
    intros. apply respects_ret.
  - apply (respects_lookup_step w h first reasons (λ signature reasons',
             lookup_failed w h url next rest reasons')).
    intros. apply IH.
Qed.

Lemma respects_debug_failed w h tx_info : respects Q (debug_failed w h url tx_info).
Proof.
  unfold debug_failed.
  do 2 (apply respects_bind; [apply respects_lift|intros ?]).
  apply respects_bind; [apply respects_lift|intros [|first rest]];
    [apply respects_print|].
  apply respects_bind; [apply respects_print|intros _].
  apply respects_bind; [apply respects_lookup_failed|intros [[last reasons]|]];
    [|apply respects_ret].
  do 2 (apply respects_bind; [apply respects_print|intros _]).
  apply respects_bind; [apply respects_print_reasons|intros _]. apply respects_print.
Qed.

(** Lines 23-75 *)
Lemma respects_debug_transaction w h operator_url :
  respects Q (debug_transaction w h operator_url url).
Proof.
  unfold debug_transaction.
  apply respects_bind; [by apply respects_emit|intros _].
  destruct (negb _); [by apply respects_emit|].
  do 3 (apply respects_bind; [apply respects_lift|intros ?]).
  apply respects_bind; [apply respects_get_transaction|intros ?].
  do 4 (apply respects_bind; [apply respects_lift|intros ?]).
  apply respects_bind; [apply respects_print|intros _].
  apply respects_bind; [apply respects_lift|intros ?].
  do 2 (apply respects_bind; [apply respects_print|intros _]).
  case_bool_decide; [apply respects_ret|apply respects_debug_failed].
Qed.

Lemma respects_ensure_logs_dir : respects Q ensure_logs_dir.
Proof. intros [dir|]; [apply inv_ret|apply inv_mkdir]. Qed.

Lemma respects_print_logs : respects Q print_logs.
Proof.
  intros [dir|]; [|apply inv_raise]. cbn [print_logs fst snd outcome_of].
  induction (map_to_list dir) as [|[log content] l IH]; [apply inv_ret|].
  change (Q (Some dir) Normal
            ([Print ("---- Log from file: " +:+ log)]
             ++ ([Print content]
                 ++ (l ≫= λ '(log, content),
                       [Print ("---- Log from file: " +:+ log); Print content])))
            (Some dir)).
  eapply inv_seq; [by apply inv_emit|]. eapply inv_seq; [by apply inv_emit|exact IH].
Qed.

Lemma respects_show_logs args : respects Q (show_logs args).
Proof.
  unfold show_logs. destruct (logs args); [|apply respects_ret].
  do 2 (apply respects_bind; [apply respects_print|intros _]).
  apply respects_print_logs.
Qed.
End Respects.

(** Lines 78-158, for a relation that also holds of the four guards that
    print a message and leave. *)
Lemma respects_main (Q : files → outcome → list event → files → Prop) w cfg args :
  (∀ url, Invariant url Q) →
  (∀ fs message, message ∈ exit_messages → Q fs (Exited 1) [Print message] fs) →
  respects Q (main w cfg args).
Proof.
  intros HQ Hguard. pose proof (HQ "") as HQ0.
  assert (∀ message, message ∈ exit_messages →
                     respects Q (print message;; @exit unit 1)) as Hleave.
  { intros message Hmessage fs. by apply Hguard. }
  unfold main.
  destruct (negb (dict_has _ _)); [apply Hleave; set_solver|].
  destruct (negb (valid_hash _)).
  { apply (respects_bind "" Q); [apply (respects_print "" Q)|intros _].
    apply Hleave. set_solver. }
  apply (respects_bind "" Q); [apply (respects_ensure_logs_dir "" Q)|intros _].
  do 2 (apply (respects_bind "" Q); [apply (respects_print "" Q)|intros _]).
  apply (respects_bind "" Q); [apply (respects_verify_transactions "" Q)|intros ?].
  destruct (negb (truthy _)); [apply Hleave; set_solver|].
  do 2 (apply (respects_bind "" Q); [apply (respects_print "" Q)|intros _]).
  apply (respects_bind "" Q); [apply (respects_verify_receipts "" Q)|intros ?].
  destruct (negb (truthy _)); [apply Hleave; set_solver|].
  do 2 (apply (respects_bind "" Q); [apply (respects_print "" Q)|intros _]).
  apply (respects_bind "" Q); [apply (respects_lift "" Q)|intros operator_url].
  apply (respects_bind "" Q); [apply (respects_lift "" Q)|intros solana_url].
  apply (respects_bind "" Q);
    [apply (respects_debug_transaction solana_url Q)|intros _].
  apply (respects_show_logs "" Q).
Qed.

(** *** No file is lost *)

#[local] Instance preserves_invariant url :
  Invariant url (λ fs _ t fs', preserves fs t fs').
Proof.
  split.
  - intros fs dir ->. by exists dir.
  - intros fs fs1 fs2 _ t t' H1 H2 dir ->.
    destruct (H1 dir eq_refl) as (dir1 & -> & Hdom1 & Hsame1).
    destruct (H2 dir1 eq_refl) as (dir2 & -> & Hdom2 & Hsame2).
    exists dir2. split; [done|]. split; [set_solver|].
    intros path Hpath. rewrite written_app, fmap_app in Hpath.
    rewrite Hsame2, Hsame1; set_solver.
  - intros fs _ dir ->. by exists dir.
  - intros fs e He dir ->. by exists dir.
  - intros dir signature content dir0 [= <-].
    exists (<[log_file signature := content]> dir). split; [done|].
    split; [rewrite dom_insert_L; set_solver|].
    intros path Hpath. rewrite lookup_insert_ne; [done|]. set_solver.
  - by intros dir.
Qed.

(** A run loses no file of the logs directory, and it leaves every file
    that it does not report writing as it was. *)
Theorem run_preserves_logs w cfg args fs :
  let '(_, t, fs') := main w cfg args fs in
  preserves fs t fs'.
Proof.
  pose proof (respects_main (λ fs _ t fs', preserves fs t fs') w cfg args
                preserves_invariant) as H.
  specialize (H (λ fs _ _ dir Hfs,
                   ex_intro _ dir (conj Hfs (conj (reflexivity _) (λ _ _, eq_refl)))) fs).
  by destruct (main w cfg args fs) as [[r t] fs'].
Qed.

(** *** Writes follow lookups *)

Lemma writes_follow_lookups_app url t t' :
  writes_follow_lookups url t → writes_follow_lookups url t' →
  writes_follow_lookups url (t ++ t').
Proof.
  intros Ht Ht' i path content Hi.
  apply lookup_app_Some in Hi as [Hi|[Hlen Hi]].
  - destruct (Ht _ _ _ Hi) as (j & signature & -> & Hj & ->).
    exists j, signature. split; [done|]. split; [|done]. by apply lookup_app_l_Some.
  - destruct (Ht' _ _ _ Hi) as (j & signature & Hij & Hj & ->).
    exists (length t + j)%nat, signature. split; [lia|]. split; [|done].
    by rewrite lookup_app_r, Nat.add_comm, Nat.add_sub by lia.
Qed.

#[local] Instance writes_follow_lookups_invariant url :
  Invariant url (λ _ _ t _, writes_follow_lookups url t).
Proof.
  split.
  - by intros _ i path content ?.
  - intros _ _ _ _ t t'. apply writes_follow_lookups_app.
  - by intros _ _ i path content ?.
  - intros _ e He [|i] path content Hi; [|done]. injection Hi as ->. by destruct (He path content).
  - intros dir signature content [|[|i]] path content' Hi; [done| |done].
    injection Hi as <- <-. by exists 0%nat, signature.
  - by intros [|i] path content ?.
Qed.

(** Whatever the operator and the settlement chain answer, every file the
    debugger writes is [logs/<signature>.log] for the signature whose
    lookup is the event right before the write. *)
Theorem writes_come_after_lookups w h url surl fs :
  writes_follow_lookups surl (debug_transaction w h url surl fs).1.2.
Proof.
  apply (respects_debug_transaction surl (λ _ _ t _, writes_follow_lookups surl t)).
Qed.

(** *** Leaving the process *)

#[local] Instance no_exit_invariant url :
  Invariant url (λ _ o _ _, ∀ c, o ≠ Exited c).
Proof. by split. Qed.

#[local] Instance exit_message_invariant url :
  Invariant url (λ _ o t _, ∀ c, o = Exited c →
    c = 1 ∧ ∃ message, message ∈ exit_messages ∧ last (printed t) = Some message).
Proof.
  split; try done.
  intros _ _ _ o t t' _ H c Hc. destruct (H c Hc) as (-> & message & Hin & Hlast).
  split; [done|]. exists message. split; [done|].
  by rewrite printed_app, last_app, Hlast.
Qed.

Lemma after_outcome {A} t (x : ending A * list event * files) c :
  (after t x).1.1 = Exits c → x.1.1 = Exits c.
Proof. by rewrite after_ending. Qed.

Lemma last_printed_message t message :
  last (printed (t ++ [Print message])) = Some message.
Proof. rewrite printed_app. apply last_snoc. Qed.

(** The run leaves through [exit] only with status 1 and only right after
    printing one of the four messages; the debugger and the printing of the
    logs never do. *)
Theorem exits_carry_a_message w cfg args fs c :
  (main w cfg args fs).1.1 = Exits c →
  c = 1
  ∧ ∃ message, message ∈ exit_messages
               ∧ last (printed (main w cfg args fs).1.2) = Some message.
Proof.
  intros Hexit.
  pose proof (respects_main _ w cfg args exit_message_invariant) as H.
  apply (λ Hguard, H Hguard fs c); [|by rewrite Hexit].
  intros _ message Hmessage c' [= <-]. split; [done|]. by exists message.
Qed.

(** The guard of lines 144-146 is never taken: a run that reaches it has the
    name of the last endpoint in [receipt_operator], the name that passed
    the guard of lines 127-129.  So a run leaves through [exit] only after
    one of the other three messages. *)
Theorem receipt_guard_is_never_taken w cfg args fs c :
  (main w cfg args fs).1.1 = Exits c →
  ∃ message,
    message ∈ ["Network not found"; "Invalid transaction hash";
               "Transaction not found in operators"]
    ∧ last (printed (main w cfg args fs).1.2) = Some message.
Proof.
  destruct (dict_has (network args) (solana cfg)) eqn:Hnetwork.
  2: { intros _. exists "Network not found". split; [set_solver|].
       unfold main. by rewrite Hnetwork. }
  destruct (valid_hash (tx_hash args)) eqn:Hvalid.
  2: { intros _. exists "Invalid transaction hash". split; [set_solver|].
       unfold main. by rewrite Hnetwork, Hvalid. }
  assert (rpc cfg = [] ∨ rpc cfg ≠ []) as [Hrpc|Hrpc]
    by (destruct (rpc cfg); [by left|by right]).
  { intros _. exists "Transaction not found in operators". split; [set_solver|].
    rewrite (main_no_operator _ _ _ _ Hnetwork Hvalid Hrpc).
    apply last_printed_message. }
  destruct (hex_bytes (tx_hash args) <=? 32)%nat eqn:Hbytes.
  2: { destruct (rpc cfg) as [|item items] eqn:Hitems; [done|].
       by rewrite (main_long_hash _ _ _ _ Hnetwork Hvalid _ _ Hbytes Hitems). }
  destruct (Forall_or_first_miss (has_transaction w (tx_hash args)) (rpc cfg))
    as [Htransactions|(found & [miss url'] & rest & Hfound_rpc & Hfound & Hmiss)].
  2: { unfold has_transaction in Hmiss. cbn [snd] in Hmiss.
       rewrite (main_transaction_miss _ _ _ _ Hnetwork Hvalid Hbytes _ _ _ _
                  Hfound_rpc Hfound); [done|].
       by destruct (eth_get_transaction w url' (tx_hash args)). }
  destruct (truthy (last_name (rpc cfg) None)) eqn:Hnamed.
  2: { intros _. exists "Transaction not found in operators". split; [set_solver|].
       rewrite (main_transaction_unnamed _ _ _ _ Hnetwork Hvalid Hbytes
                  Htransactions Hnamed).
       cbn [fst snd]. rewrite (assoc (++)). apply last_printed_message. }
  destruct (Forall_or_first_miss (has_receipt w (tx_hash args)) (rpc cfg))
    as [Hreceipts|(found & [miss url'] & rest & Hfound_rpc & Hfound & Hmiss)].
  2: { apply not_true_is_false in Hmiss.
       by rewrite (main_receipt_miss _ _ _ _ Hnetwork Hvalid Hbytes Htransactions
                     Hnamed _ _ _ _ Hfound_rpc Hfound Hmiss). }
  rewrite (main_receipts_found _ _ _ _ Hnetwork Hvalid Hbytes Htransactions Hnamed
             Hreceipts).
  intros Hexit%after_outcome. exfalso. revert Hexit.
  match goal with
  | |- (?m ?fs').1.1 = _ → _ =>
      assert (respects (λ _ o _ _, ∀ c, o ≠ Exited c) m) as Hm
  end.
  { apply (respects_bind "" _); [apply (respects_lift "" _)|intros operator_url].
    apply (respects_bind "" _); [apply (respects_lift "" _)|intros solana_url].
    apply (respects_bind "" _);
      [apply (respects_debug_transaction solana_url _)|intros _].
    apply (respects_show_logs "" _). }
  intros Hexit. specialize (Hm (Some (default ∅ fs)) c). rewrite Hexit in Hm. by apply Hm.
Qed.

(** ** Printing the logs *)


(** ** These properties at sample runs *)

Lemma transaction_lines_until_first_miss_witness :
  let '(r, t, fs') :=
    verify_transactions
      (world_of (λ url, bool_decide (url = "http://first")) (always true)
         two_failed (only_first NoDetails))
      zero_hash (rpc sample_config) None None in
  ∃ asked,
    printed t = (λ item, item.1 +:+ ": Exist") <$> asked
    ∧ Forall (has_transaction
                (world_of (λ url, bool_decide (url = "http://first")) (always true)
                   two_failed (only_first NoDetails)) zero_hash) asked
    ∧ fs' = None
    ∧ ((asked = rpc sample_config
        ∧ r = Returns (last_name (rpc sample_config) None)
        ∧ filter (λ e, is_network_call e = true) t
          = (λ item, GetTransaction item.2 zero_hash) <$> rpc sample_config)
       ∨ ∃ miss rest,
           rpc sample_config = asked ++ miss :: rest
           ∧ eth_get_transaction
               (world_of (λ url, bool_decide (url = "http://first")) (always true)
                  two_failed (only_first NoDetails)) miss.2 zero_hash = None
           ∧ r = Raises TransactionNotFound
           ∧ filter (λ e, is_network_call e = true) t
             = (λ item, GetTransaction item.2 zero_hash) <$> asked ++ [miss]).
Proof.
  exact (transaction_lines_until_first_miss
    (world_of (λ url, bool_decide (url = "http://first")) (always true)
       two_failed (only_first NoDetails))
    zero_hash (rpc sample_config) None None eq_refl eq_refl).
Defined.

Lemma missing_transaction_raises_witness :
  main (world_of (λ url, bool_decide (url = "http://first")) (always true)
          two_failed (only_first NoDetails))
    sample_config (sample_arguments zero_hash) None
  = (Raises TransactionNotFound,
     [MakeDir "logs"; Print "Verify transaction exist in operators";
      Print "-------------------------------------";
      GetTransaction "http://first" zero_hash; Print "first: Exist";
      GetTransaction "http://second" zero_hash],
     Some ∅).
Proof.
  pose proof (missing_transaction_raises
    (world_of (λ url, bool_decide (url = "http://first")) (always true)
       two_failed (only_first NoDetails))
    sample_config (sample_arguments zero_hash) None
    [("first", "http://first")] "second" "http://second" []
    eq_refl eq_refl eq_refl eq_refl ltac:(by repeat constructor) eq_refl) as H.
  by_instance H.
Defined.

Lemma unnamed_operator_is_not_found_witness :
  main (sample_world 42000 two_failed) unnamed_config (sample_arguments zero_hash) None
  = (Exits 1,
     [MakeDir "logs"; Print "Verify transaction exist in operators";
      Print "-------------------------------------";
      GetTransaction "http://unnamed" zero_hash; Print ": Exist";
      Print "Transaction not found in operators"],
     Some ∅).
Proof.
  pose proof (proj1 (unnamed_operator_is_not_found
    (sample_world 42000 two_failed) unnamed_config (sample_arguments zero_hash) None
    [] "http://unnamed" eq_refl eq_refl eq_refl ltac:(by repeat constructor) eq_refl))
    as H.
  by_instance H.
Defined.

Lemma missing_receipt_raises_witness :
  main (world_of (always true) (λ url, bool_decide (url = "http://first"))
          two_failed (only_first NoDetails))
    sample_config (sample_arguments zero_hash) None
  = (Raises TransactionNotFound,
     [MakeDir "logs"; Print "Verify transaction exist in operators";
      Print "-------------------------------------";
      GetTransaction "http://first" zero_hash; Print "first: Exist";
      GetTransaction "http://second" zero_hash; Print "second: Exist";
      Print (newline +:+ "Verify receipt exist in operators");
      Print "---------------------------------";
      GetTransactionReceipt "http://first" zero_hash; Print "first: Exist";
      GetTransactionReceipt "http://second" zero_hash],
     Some ∅).
Proof.
  pose proof (missing_receipt_raises
    (world_of (always true) (λ url, bool_decide (url = "http://first"))
       two_failed (only_first NoDetails))
    sample_config (sample_arguments zero_hash) None
    [("first", "http://first")] "second" "http://second" []
    eq_refl eq_refl eq_refl ltac:(by repeat constructor) eq_refl eq_refl
    ltac:(by repeat constructor) eq_refl) as H.
  by_instance H.
Defined.

Lemma long_hash_raises_witness :
  main (sample_world 42000 two_failed) sample_config (sample_arguments bare_hash) None
  = (Raises ValueError,
     [MakeDir "logs"; Print "Verify transaction exist in operators";
      Print "-------------------------------------"],
     Some ∅).
Proof.
  pose proof (proj2 (long_hash_raises
    (sample_world 42000 two_failed) sample_config (sample_arguments bare_hash) None
    ("first", "http://first") [("second", "http://second")]
    eq_refl eq_refl eq_refl eq_refl)) as H.
  by_instance H.
Defined.

Lemma receipt_guard_is_never_taken_witness :
  ∃ message,
    message ∈ ["Network not found"; "Invalid transaction hash";
               "Transaction not found in operators"]
    ∧ last (printed (main (sample_world 42000 two_failed) unnamed_config
                       (sample_arguments zero_hash) None).1.2)
      = Some message.
Proof.
  apply (receipt_guard_is_never_taken (sample_world 42000 two_failed) unnamed_config
           (sample_arguments zero_hash) None 1).
  vm_compute. reflexivity.
Defined.

Lemma world_of_answers response details tx_info :
  dict_get "result" response = Some tx_info →
  operator_answers (world_of (always true) (always true) response details)
    "http://first" zero_hash tx_info 42000.
Proof. by split. Qed.

Lemma first_has_logs response other :
  Forall (has_logs (world_of (always true) (always true) response (only_first other))
            "http://solana" sample_logs) [signature_a].
Proof.
  apply Forall_cons_2; [|apply Forall_nil_2].
  split; [vm_compute; reflexivity|reflexivity|discriminate].
Qed.

Lemma lookup_without_details_stops_witness :
  debug_transaction
    (world_of (always true) (always true) two_failed (only_first NoDetails))
    zero_hash "http://first" "http://solana" (Some ∅)
  = (Returns tt,
     failed_report "http://first" zero_hash 42000 21000 "50.00" 3 2
     ++ [SolanaGetTransaction "http://solana" signature_a;
         WriteFile (log_file signature_a) (join newline (sample_logs signature_a));
         SolanaGetTransaction "http://solana" signature_b;
         Print (not_found_message zero_hash)],
     Some {[log_file signature_a := join newline (sample_logs signature_a)]}).
Proof.
  pose proof (lookup_without_details_stops
    (world_of (always true) (always true) two_failed (only_first NoDetails))
    zero_hash "http://first" "http://solana" ∅
    two_failed_receipt 42000 21000 "50.00" two_failed_entries
    sample_logs [signature_a] signature_b []
    (world_of_answers two_failed _ two_failed_receipt eq_refl)
    (sample_extended_receipt "0x0" two_failed_entries)
    ltac:(discriminate) sample_percent eq_refl (first_has_logs _ _)
    ltac:(vm_compute; reflexivity) (or_introl eq_refl)) as H.
  by_instance H.
Defined.

Lemma lookup_without_logs_raises_witness :
  debug_transaction
    (world_of (always true) (always true) two_failed
       (only_first (Details (Some (Some [])))))
    zero_hash "http://first" "http://solana" (Some ∅)
  = (Raises IndexError,
     failed_report "http://first" zero_hash 42000 21000 "50.00" 3 2
     ++ [SolanaGetTransaction "http://solana" signature_a;
         WriteFile (log_file signature_a) (join newline (sample_logs signature_a));
         SolanaGetTransaction "http://solana" signature_b],
     Some {[log_file signature_a := join newline (sample_logs signature_a)]}).
Proof.
  pose proof (lookup_without_logs_raises
    (world_of (always true) (always true) two_failed
       (only_first (Details (Some (Some [])))))
    zero_hash "http://first" "http://solana" ∅
    two_failed_receipt 42000 21000 "50.00" two_failed_entries
    sample_logs [signature_a] signature_b [] IndexError
    (world_of_answers two_failed _ two_failed_receipt eq_refl)
    (sample_extended_receipt "0x0" two_failed_entries)
    ltac:(discriminate) sample_percent eq_refl (first_has_logs _ _)
    ltac:(vm_compute; reflexivity) empty_log_messages) as H.
  by_instance H.
Defined.

Lemma malformed_signature_raises_witness :
  debug_transaction
    (world_of (always true) (always true) [("result", malformed_receipt)]
       (only_first NoDetails))
    zero_hash "http://first" "http://solana" (Some ∅)
  = (Raises ValueError,
     failed_report "http://first" zero_hash 42000 21000 "50.00" 2 2
     ++ [SolanaGetTransaction "http://solana" signature_a;
         WriteFile (log_file signature_a) (join newline (sample_logs signature_a))],
     Some {[log_file signature_a := join newline (sample_logs signature_a)]}).
Proof.
  pose proof (malformed_signature_raises
    (world_of (always true) (always true) [("result", malformed_receipt)]
       (only_first NoDetails))
    zero_hash "http://first" "http://solana" ∅
    malformed_receipt 42000 21000 "50.00" malformed_entries
    sample_logs [signature_a] "0OIl" []
    (world_of_answers [("result", malformed_receipt)] _ malformed_receipt eq_refl)
    (sample_extended_receipt "0x0" malformed_entries)
    ltac:(discriminate) sample_percent eq_refl (first_has_logs _ _)
    ltac:(vm_compute; reflexivity)) as H.
  by_instance H.
Defined.

Lemma unreadable_result_raises_witness :
  debug_transaction (sample_world 42000 [("result", JNull)])
    zero_hash "http://first" "http://solana" None
  = (Raises TypeError, [NeonGetTransactionReceipt "http://first" zero_hash], None).
Proof.
  refine (proj1 (unreadable_result_raises (sample_world 42000 [("result", JNull)])
                   zero_hash "http://first" "http://solana" None JNull eq_refl) _).
  discriminate.
Defined.

Lemma unknown_transaction_raises_witness :
  debug_transaction
    (world_of (always false) (always true) two_failed (only_first NoDetails))
    zero_hash "http://first" "http://solana" None
  = (Raises TransactionNotFound,
     [NeonGetTransactionReceipt "http://first" zero_hash;
      GetTransaction "http://first" zero_hash],
     None).
Proof.
  apply (unknown_transaction_raises
    (world_of (always false) (always true) two_failed (only_first NoDetails))
    zero_hash "http://first" "http://solana" None
    two_failed_receipt (JStr "0x0")); reflexivity.
Defined.

Lemma report_needs_whole_receipt_witness :
  ∃ tx_info status_field gas gas_used solana_transactions solana_txs,
    dict_get "result" two_failed = Some tx_info
    ∧ getitem tx_info "status" = Val status_field
    ∧ Some 42000 = Some gas
    ∧ (getitem tx_info "gasUsed" ≫= py_int16) = Val gas_used
    ∧ getitem tx_info "solanaTransactions" = Val solana_transactions
    ∧ py_len solana_transactions = Val solana_txs
    ∧ Some "Status: Failed" = Some ("Status: " +:+ status_of status_field).
Proof.
  pose proof (report_needs_whole_receipt (sample_world 42000 two_failed)
                zero_hash "http://first" "http://solana" (Some ∅)) as H.
  assert (head (printed (debug_transaction (sample_world 42000 two_failed)
                    zero_hash "http://first" "http://solana" (Some ∅)).1.2)
          = Some "Status: Failed") as Hhead by (vm_compute; reflexivity).
  destruct (debug_transaction _ _ _ _ _) as [[r t] fs']. cbn [fst snd] in Hhead.
  rewrite Hhead in H. apply H. by destruct (printed t).
Defined.

Lemma exits_carry_a_message_witness :
  ∃ message,
    message ∈ exit_messages
    ∧ last (printed (main (sample_world 42000 two_failed) sample_config
                       (sample_arguments "0x12") None).1.2)
      = Some message.
Proof.
  apply (exits_carry_a_message (sample_world 42000 two_failed) sample_config
           (sample_arguments "0x12") None 1).
  reflexivity.
Defined.

